(** * assignment-api: tracked courses, authentication and catalog handlers

    A shallow embedding of [db.js] (the pool and the three tracked-course
    helpers), of the tables of [database/schema.sql] and of the route
    handlers of [app.js], followed by the properties of the specification
    that can be stated on them.

    Conventions of the embedding.
    - The PostgreSQL service is an external collaborator.  Its state is the
      record [Db]; every SQL text of the sources is a [Statement], a function
      on [Db] that follows the statement and the constraints of the schema.
    - A statement is sent through [pool_query] or [client_query].  Either the
      service completes it or it fails outright: the [faults] of the world
      say which of the coming round trips fail.
    - Path parameters and body fields are taken after PostgreSQL has read
      them at the column types; a parameter it cannot read makes the
      statement fail and is one of the faults.
    - An [async] handler that throws gives a rejected promise and sends
      nothing: its result is [Throw e].
    - [app.js] holds the whole application twice.  The handlers of the first
      half are in [Earlier], those of the second half in [Later]; the
      second [require] and [const] lines repeat the first ones and are read
      as the same bindings. *)

From Stdlib Require Import ZArith List String Bool Lia.
Import ListNotations.

Local Open Scope Z_scope.

(** ** Tables of [schema.sql] *)

Module Users.
(** [CREATE TABLE users]; [tracked_courses] is only ever written by its
    default ['{}'], by [array_append] and by [array_remove]. *)
Record row := mk {
  id : Z;
  email : string;
  password_hash : string;
  verified : bool;
  tracked_courses : list Z
}.

Definition set_verified (v : bool) (r : row) : row :=
  mk (id r) (email r) (password_hash r) v (tracked_courses r).

Definition set_tracked_courses (l : list Z) (r : row) : row :=
  mk (id r) (email r) (password_hash r) (verified r) l.
End Users.

Module Courses.
Record row := mk {
  id : Z;
  name : string;
  description : option string;
  instructor : option string
}.
End Courses.

Module Assignments.
Record row := mk {
  id : Z;
  title : string;
  description : option string;
  due_date : option string;
  course_id : option Z;
  file_path : option string
}.
End Assignments.

(** The database: the three tables in heap order and the last value handed
    out by each [SERIAL] sequence. *)
Record Db := mkDb {
  users_tbl : list Users.row;
  users_id_seq : Z;
  courses_tbl : list Courses.row;
  courses_id_seq : Z;
  assignments_tbl : list Assignments.row;
  assignments_id_seq : Z
}.

Definition with_users (l : list Users.row) (d : Db) : Db :=
  mkDb l (users_id_seq d) (courses_tbl d) (courses_id_seq d)
       (assignments_tbl d) (assignments_id_seq d).

Definition with_users_seq (n : Z) (d : Db) : Db :=
  mkDb (users_tbl d) n (courses_tbl d) (courses_id_seq d)
       (assignments_tbl d) (assignments_id_seq d).

Definition with_courses (l : list Courses.row) (d : Db) : Db :=
  mkDb (users_tbl d) (users_id_seq d) l (courses_id_seq d)
       (assignments_tbl d) (assignments_id_seq d).

Definition with_courses_seq (n : Z) (d : Db) : Db :=
  mkDb (users_tbl d) (users_id_seq d) (courses_tbl d) n
       (assignments_tbl d) (assignments_id_seq d).

Definition with_assignments (l : list Assignments.row) (d : Db) : Db :=
  mkDb (users_tbl d) (users_id_seq d) (courses_tbl d) (courses_id_seq d)
       l (assignments_id_seq d).

Definition with_assignments_seq (n : Z) (d : Db) : Db :=
  mkDb (users_tbl d) (users_id_seq d) (courses_tbl d) (courses_id_seq d)
       (assignments_tbl d) n.

(** ** Exceptions and results *)

Inductive Exn :=
| PgError (sqlstate : string)
| ReferenceError (ident : string)
| TypeError (msg : string)
| Error (msg : string).

Inductive Result (A : Type) :=
| Ok (a : A)
| Throw (e : Exn).
Arguments Ok {A} a.
Arguments Throw {A} e.

(** SQLSTATE codes used below. *)
Definition connection_failure : string := "08006".
Definition not_null_violation : string := "23502".
Definition foreign_key_violation : string := "23503".
Definition unique_violation : string := "23505".

(** ** Module-level bindings of [app.js] *)

(** [users] is read by [loginUser] and declared nowhere in the sources: it
    is taken as a parameter.  Its elements carry the four properties the
    handler reads. *)
Record MemUser := mkMemUser {
  mu_id : Z;
  mu_email : string;
  mu_password : string;
  mu_verified : bool
}.

(** [SECRET] is [process.env.MY_SECRET_KEY], [undefined] when unset; [users]
    is [None] when no such binding exists. *)
Record Globals := mkGlobals {
  SECRET : option string;
  users : option (list MemUser)
}.

(** ** The world a handler runs in *)

Record World := mkWorld {
  db : Db;
  globals : Globals;
  faults : list bool;   (* does the n-th coming round trip to the store fail *)
  leased : nat;         (* clients checked out of the pool *)
  seed : nat;           (* entropy for bcrypt salts *)
  now : Z               (* clock, in seconds *)
}.

Definition with_db (d : Db) (w : World) : World :=
  mkWorld d (globals w) (faults w) (leased w) (seed w) (now w).

Definition with_faults (f : list bool) (w : World) : World :=
  mkWorld (db w) (globals w) f (leased w) (seed w) (now w).

Definition with_leased (n : nat) (w : World) : World :=
  mkWorld (db w) (globals w) (faults w) n (seed w) (now w).

Definition with_seed (n : nat) (w : World) : World :=
  mkWorld (db w) (globals w) (faults w) (leased w) n (now w).

(** ** The monad of asynchronous code: state and exceptions *)

Definition M (A : Type) : Type := World -> Result A * World.

Definition ret {A} (a : A) : M A := fun w => (Ok a, w).

Definition throw {A} (e : Exn) : M A := fun w => (Throw e, w).

Definition bind {A B} (m : M A) (k : A -> M B) : M B :=
  fun w =>
    match m w with
    | (Ok a, w') => k a w'
    | (Throw e, w') => (Throw e, w')
    end.

Notation "x <- m ;; k" := (bind m (fun x => k))
  (at level 61, m at next level, right associativity).
Notation "m ;;; k" := (bind m (fun _ => k))
  (at level 61, right associativity).

(** [try { m } catch (err) { h }] *)
Definition try_catch {A} (m : M A) (h : Exn -> M A) : M A :=
  fun w =>
    match m w with
    | (Ok a, w') => (Ok a, w')
    | (Throw e, w') => h e w'
    end.

(** [try { m } finally { f }] *)
Definition try_finally {A} (m : M A) (f : M unit) : M A :=
  fun w =>
    match m w with
    | (r, w') =>
        match f w' with
        | (Ok _, w'') => (r, w'')
        | (Throw e, w'') => (Throw e, w'')
        end
    end.

(** ** SQL statements *)

(** A statement returns its rows, or raises; it may change the database
    either way (a sequence keeps the value it gave to a failed insert). *)
Definition Statement (A : Type) : Type := Db -> Result A * Db.

Definition opt_eqb (a : option string) (b : string) : bool :=
  match a with
  | Some s => String.eqb s b
  | None => false       (* [x = NULL] is never true *)
  end.

(** [SELECT * FROM users WHERE email = $1] *)
Definition select_users_by_email (e : option string)
  : Statement (list Users.row) :=
  fun d => (Ok (filter (fun r => opt_eqb e (Users.email r)) (users_tbl d)), d).

(** [SELECT * FROM users WHERE id = $1] *)
Definition select_users_by_id (i : Z) : Statement (list Users.row) :=
  fun d => (Ok (filter (fun r => Users.id r =? i) (users_tbl d)), d).

(** [SELECT * FROM users] *)
Definition select_users : Statement (list Users.row) :=
  fun d => (Ok (users_tbl d), d).

(** [SELECT * FROM users WHERE verified=true] and [... verified=false] *)
Definition select_users_verified (v : bool) : Statement (list Users.row) :=
  fun d => (Ok (filter (fun r => Bool.eqb (Users.verified r) v) (users_tbl d)), d).

(** [INSERT INTO users (email, password_hash, verified)
     VALUES ($1, $2, $3) RETURNING *] *)
Definition insert_user (e : option string) (h : string) (v : bool)
  : Statement (list Users.row) :=
  fun d =>
    let i := users_id_seq d + 1 in
    let d1 := with_users_seq i d in
    match e with
    | None => (Throw (PgError not_null_violation), d1)
    | Some e =>
        if existsb (fun r => (Users.id r =? i) || String.eqb (Users.email r) e)
                   (users_tbl d)
        then (Throw (PgError unique_violation), d1)
        else
          let r := Users.mk i e h v [] in
          (Ok [r], with_users (users_tbl d ++ [r]) d1)
    end.

(** [UPDATE users SET verified = true WHERE id = $1] *)
Definition update_user_verified (i : Z) : Statement unit :=
  fun d =>
    (Ok tt,
     with_users
       (map (fun r => if Users.id r =? i then Users.set_verified true r else r)
            (users_tbl d)) d).

(** [array_append(a, x)] *)
Definition array_append (a : list Z) (x : Z) : list Z := a ++ [x].

(** [array_remove(a, x)]: every element equal to [x] is removed. *)
Definition array_remove (a : list Z) (x : Z) : list Z :=
  filter (fun y => negb (y =? x)) a.

(** [UPDATE users SET tracked_courses = array_append(tracked_courses, $1)
     WHERE id = $2] *)
Definition update_tracked_append (courseId userId : Z) : Statement unit :=
  fun d =>
    (Ok tt,
     with_users
       (map (fun r =>
               if Users.id r =? userId
               then Users.set_tracked_courses
                      (array_append (Users.tracked_courses r) courseId) r
               else r)
            (users_tbl d)) d).

(** [UPDATE users SET tracked_courses = array_remove(tracked_courses, $1)
     WHERE id = $2] *)
Definition update_tracked_remove (courseId userId : Z) : Statement unit :=
  fun d =>
    (Ok tt,
     with_users
       (map (fun r =>
               if Users.id r =? userId
               then Users.set_tracked_courses
                      (array_remove (Users.tracked_courses r) courseId) r
               else r)
            (users_tbl d)) d).

(** [SELECT tracked_courses FROM users WHERE id = $1] *)
Definition select_tracked_courses (userId : Z) : Statement (list (list Z)) :=
  fun d =>
    (Ok (map Users.tracked_courses
             (filter (fun r => Users.id r =? userId) (users_tbl d))), d).

(** [INSERT INTO courses (name, description, instructor)
     VALUES ($1, $2, $3) RETURNING *] *)
Definition insert_course (n ds ins : option string)
  : Statement (list Courses.row) :=
  fun d =>
    let i := courses_id_seq d + 1 in
    let d1 := with_courses_seq i d in
    match n with
    | None => (Throw (PgError not_null_violation), d1)
    | Some n =>
        if existsb (fun r => Courses.id r =? i) (courses_tbl d)
        then (Throw (PgError unique_violation), d1)
        else
          let r := Courses.mk i n ds ins in
          (Ok [r], with_courses (courses_tbl d ++ [r]) d1)
    end.

(** [course_id INTEGER REFERENCES courses(id)] *)
Definition course_ref_ok (c : option Z) (d : Db) : bool :=
  match c with
  | None => true
  | Some c => existsb (fun r => Courses.id r =? c) (courses_tbl d)
  end.

(** [INSERT INTO assignments (title, description, due_date, course_id)
     VALUES ($1, $2, $3, $4) RETURNING *] *)
Definition insert_assignment (t ds due : option string) (c : option Z)
  : Statement (list Assignments.row) :=
  fun d =>
    let i := assignments_id_seq d + 1 in
    let d1 := with_assignments_seq i d in
    match t with
    | None => (Throw (PgError not_null_violation), d1)
    | Some t =>
        if existsb (fun r => Assignments.id r =? i) (assignments_tbl d)
        then (Throw (PgError unique_violation), d1)
        else if course_ref_ok c d
        then
          let r := Assignments.mk i t ds due c None in
          (Ok [r], with_assignments (assignments_tbl d ++ [r]) d1)
        else (Throw (PgError foreign_key_violation), d1)
    end.

(** [SELECT * FROM courses] *)
Definition select_courses : Statement (list Courses.row) :=
  fun d => (Ok (courses_tbl d), d).

(** [SELECT * FROM assignments] *)
Definition select_assignments : Statement (list Assignments.row) :=
  fun d => (Ok (assignments_tbl d), d).

(** [UPDATE courses SET name = $1, description = $2, instructor = $3
     WHERE id = $4 RETURNING *] *)
Definition update_course (n ds ins : option string) (i : Z)
  : Statement (list Courses.row) :=
  fun d =>
    let hit := fun r => Courses.id r =? i in
    if existsb hit (courses_tbl d)
    then
      match n with
      | None => (Throw (PgError not_null_violation), d)
      | Some n =>
          let t := map (fun r => if hit r
                                 then Courses.mk (Courses.id r) n ds ins
                                 else r) (courses_tbl d) in
          (Ok (filter hit t), with_courses t d)
      end
    else (Ok [], d).

(** [UPDATE assignments SET title = $1, description = $2, due_date = $3,
     course_id = $4 WHERE id = $5 RETURNING *] *)
Definition update_assignment (t ds due : option string) (c : option Z) (i : Z)
  : Statement (list Assignments.row) :=
  fun d =>
    let hit := fun r => Assignments.id r =? i in
    if existsb hit (assignments_tbl d)
    then
      match t with
      | None => (Throw (PgError not_null_violation), d)
      | Some t =>
          if course_ref_ok c d
          then
            let l := map (fun r => if hit r
                                   then Assignments.mk (Assignments.id r) t ds
                                          due c (Assignments.file_path r)
                                   else r) (assignments_tbl d) in
            (Ok (filter hit l), with_assignments l d)
          else (Throw (PgError foreign_key_violation), d)
      end
    else (Ok [], d).

(** [DELETE FROM courses WHERE id = $1], with or without [RETURNING *]:
    refused while an assignment still references the course. *)
Definition delete_course (i : Z) : Statement (list Courses.row) :=
  fun d =>
    let hit := fun r => Courses.id r =? i in
    if existsb hit (courses_tbl d) &&
       existsb (fun a => match Assignments.course_id a with
                         | Some c => c =? i
                         | None => false
                         end) (assignments_tbl d)
    then (Throw (PgError foreign_key_violation), d)
    else (Ok (filter hit (courses_tbl d)),
          with_courses (filter (fun r => negb (hit r)) (courses_tbl d)) d).

(** [DELETE FROM assignments WHERE id = $1], with or without
    [RETURNING *] *)
Definition delete_assignment (i : Z) : Statement (list Assignments.row) :=
  fun d =>
    let hit := fun r => Assignments.id r =? i in
    (Ok (filter hit (assignments_tbl d)),
     with_assignments (filter (fun r => negb (hit r)) (assignments_tbl d)) d).

(** ** The connection pool of [db.js] *)

(** One round trip to the store: it fails when the next fault says so, and
    runs the statement otherwise. *)
Definition round_trip {A} (stmt : Statement A) : M A :=
  fun w =>
    match faults w with
    | true :: fs => (Throw (PgError connection_failure), with_faults fs w)
    | false :: fs =>
        let (r, d) := stmt (db w) in (r, with_db d (with_faults fs w))
    | [] =>
        let (r, d) := stmt (db w) in (r, with_db d w)
    end.

(** [pool.query(text, values)] *)
Definition pool_query {A} (stmt : Statement A) : M A := round_trip stmt.

(** [pool.connect()] *)
Definition pool_connect : M unit :=
  fun w =>
    match faults w with
    | true :: fs => (Throw (PgError connection_failure), with_faults fs w)
    | false :: fs => (Ok tt, with_leased (S (leased w)) (with_faults fs w))
    | [] => (Ok tt, with_leased (S (leased w)) w)
    end.

(** [client.query(text, values)] *)
Definition client_query {A} (stmt : Statement A) : M A := round_trip stmt.

(** [client.release()] *)
Definition client_release : M unit :=
  fun w => (Ok tt, with_leased (pred (leased w)) w).

(** ** The tracked-course helpers of [db.js] *)

Definition addTrackedCourse (userId courseId : Z) : M unit :=
  pool_connect ;;;
  try_finally
    (client_query (update_tracked_append courseId userId))
    client_release.

Definition removeTrackedCourse (userId courseId : Z) : M unit :=
  pool_connect ;;;
  try_finally
    (client_query (update_tracked_remove courseId userId))
    client_release.

Definition getTrackedCourses (userId : Z) : M (list Z) :=
  pool_connect ;;;
  try_finally
    (result <- client_query (select_tracked_courses userId) ;;
     match result with
     | row0 :: _ => ret row0
     | [] => throw (TypeError "Cannot read properties of undefined")
     end)
    client_release.

(** ** JSON values, requests and responses *)

#[warnings="-register-all"]
Inductive Json :=
| JNull
| JBool (b : bool)
| JNum (z : Z)
| JStr (s : string)
| JArr (l : list Json)
| JObj (fields : list (string * Json)).

(** Does a property named [k] occur anywhere in the value? *)
Fixpoint has_key (k : string) (j : Json) : bool :=
  match j with
  | JArr l => existsb (has_key k) l
  | JObj fs =>
      existsb (fun kv : string * Json =>
                 let (k', v) := kv in String.eqb k' k || has_key k v) fs
  | _ => false
  end.

(** The compact serialisation that [jwt.sign] returns is kept as the record
    of what it signs and how: the payload, the issue and expiry times and
    the key.  It is opaque to the client. *)
Record Token := mkToken {
  tk_payload : list (string * Json);
  tk_iat : Z;
  tk_exp : Z;
  tk_key : string
}.

Definition opt_json (o : option string) : Json :=
  match o with
  | Some s => JStr s
  | None => JNull
  end.

Definition user_json (r : Users.row) : Json :=
  JObj [("id", JNum (Users.id r));
        ("email", JStr (Users.email r));
        ("password_hash", JStr (Users.password_hash r));
        ("verified", JBool (Users.verified r));
        ("tracked_courses", JArr (map JNum (Users.tracked_courses r)))]%string.

Definition course_json (r : Courses.row) : Json :=
  JObj [("id", JNum (Courses.id r));
        ("name", JStr (Courses.name r));
        ("description", opt_json (Courses.description r));
        ("instructor", opt_json (Courses.instructor r))]%string.

Definition assignment_json (r : Assignments.row) : Json :=
  JObj [("id", JNum (Assignments.id r));
        ("title", JStr (Assignments.title r));
        ("description", opt_json (Assignments.description r));
        ("due_date", opt_json (Assignments.due_date r));
        ("course_id", match Assignments.course_id r with
                      | Some c => JNum c
                      | None => JNull
                      end);
        ("file_path", opt_json (Assignments.file_path r))]%string.

Module Params.
(** [req.params] *)
Record t := mk { id : Z; userId : Z; courseId : Z }.
End Params.

Module Body.
(** [req.body]; a property the client left out is [None]. *)
Record t := mk {
  email : option string;
  password : option string;
  name : option string;
  description : option string;
  instructor : option string;
  title : option string;
  due_date : option string;
  course_id : option Z
}.
End Body.

Module Req.
Record t := mk { params : Params.t; body : Body.t }.
End Req.

Module Res.
Inductive content :=
| Empty                      (* [send()] *)
| Text (s : string)          (* [send('...')] *)
| Data (j : Json)            (* [json(v)], [send(object)] *)
| Session (auth : bool) (token : Token)   (* [{ auth, token }] *)
| Undefined.                 (* [json(undefined)] *)

Record t := mk { status : nat; body : content }.

Definition content_has_key (k : string) (c : content) : bool :=
  match c with
  | Data j => has_key k j
  | _ => false
  end.
End Res.

(** [res.status(s).json(v)] and the object form of [res.status(s).send(v)] *)
Definition json (s : nat) (v : Json) : M Res.t := ret (Res.mk s (Res.Data v)).

(** [res.status(s).send('...')] *)
Definition send_text (s : nat) (v : string) : M Res.t :=
  ret (Res.mk s (Res.Text v)).

(** [res.status(s).send()] *)
Definition send_empty (s : nat) : M Res.t := ret (Res.mk s Res.Empty).

(** [res.status(s).json(result.rows[0])] *)
Definition json_row0 {A} (s : nat) (to_json : A -> Json) (rows : list A)
  : M Res.t :=
  match rows with
  | r :: _ => ret (Res.mk s (Res.Data (to_json r)))
  | [] => ret (Res.mk s Res.Undefined)
  end.

(** [res.status(s).json(result.rows)] *)
Definition json_rows {A} (s : nat) (to_json : A -> Json) (rows : list A)
  : M Res.t :=
  json s (JArr (map to_json rows)).

(** [{ error: '...' }] and [{ message: '...' }] *)
Definition error_obj (m : string) : Json := JObj [("error"%string, JStr m)].
Definition message_obj (m : string) : Json := JObj [("message"%string, JStr m)].

(** ** bcryptjs and jsonwebtoken *)

(** The two entry points of bcryptjs the handlers call, on strings; the
    third argument of [hashSync] is the entropy its salt is drawn from. *)
Class Bcrypt := {
  hashSync : string -> nat -> nat -> string;
  compareSync : string -> string -> bool
}.

Section Libraries.
Context {bc : Bcrypt}.

(** [bcrypt.hashSync(password, rounds)]: illegal arguments when the
    password is [undefined]. *)
Definition bcrypt_hashSync (password : option string) (rounds : nat)
  : M string :=
  fun w =>
    match password with
    | None => (Throw (Error "Illegal arguments: undefined, number"), w)
    | Some p => (Ok (hashSync p rounds (seed w)), with_seed (S (seed w)) w)
    end.

(** [bcrypt.compareSync(password, hash)] *)
Definition bcrypt_compareSync (password : option string) (hash : string)
  : M bool :=
  match password with
  | None => throw (Error "Illegal arguments: undefined, string")
  | Some p => ret (compareSync p hash)
  end.
End Libraries.

(** [jwt.sign(payload, secret, { expiresIn })]: refuses a missing or empty
    secret; otherwise the token carries [iat] = now and
    [exp] = [iat + expiresIn]. *)
Definition jwt_sign (payload : list (string * Json)) (secret : option string)
    (expiresIn : Z) : M Token :=
  fun w =>
    match secret with
    | None | Some EmptyString =>
        (Throw (Error "secretOrPrivateKey must have a value"), w)
    | Some k => (Ok (mkToken payload (now w) (now w + expiresIn) k), w)
    end.

(** Reading the module-level [users]. *)
Definition read_users : M (list MemUser) :=
  fun w =>
    match users (globals w) with
    | Some us => (Ok us, w)
    | None => (Throw (ReferenceError "users"), w)
    end.

(** Reading the module-level [SECRET]. *)
Definition read_SECRET : M (option string) :=
  fun w => (Ok (SECRET (globals w)), w).

(** ** Route handlers of [app.js], first definitions (lines 76 to 485) *)

Module Earlier.
Section Handlers.
Context {bc : Bcrypt}.

Definition uploadAssignment (req : Req.t) : M Res.t :=
  let b := Req.body req in
  try_catch
    (result <- pool_query
                 (insert_assignment (Body.title b) (Body.description b)
                    (Body.due_date b) (Body.course_id b)) ;;
     json_row0 201 assignment_json result)
    (fun _ => json 500 (error_obj "Failed to upload assignment to database.")).

Definition loginUser (req : Req.t) : M Res.t :=
  let b := Req.body req in
  us <- read_users ;;
  match find (fun u => opt_eqb (Body.email b) (mu_email u)) us with
  | None => json 404 (error_obj "User not found.")
  | Some user =>
      passwordIsValid <- bcrypt_compareSync (Body.password b) (mu_password user) ;;
      if negb passwordIsValid
      then json 401 (error_obj "Invalid password.")
      else
        secret <- read_SECRET ;;
        token <- jwt_sign [("id"%string, JNum (mu_id user));
                           ("verified"%string, JBool (mu_verified user))]
                          secret 86400 ;;
        ret (Res.mk 200 (Res.Session true token))
  end.

Definition createUser (req : Req.t) : M Res.t :=
  let b := Req.body req in
  try_catch
    (existingUser <- pool_query (select_users_by_email (Body.email b)) ;;
     if (0 <? List.length existingUser)%nat
     then json 400 (error_obj "Email already exists.")
     else
       passwordHash <- bcrypt_hashSync (Body.password b) 8 ;;
       result <- pool_query (insert_user (Body.email b) passwordHash false) ;;
       json_row0 201 user_json result)
    (fun _ => json 500 (error_obj "Failed to create user.")).

Definition verifyUser (req : Req.t) : M Res.t :=
  let userId := Params.userId (Req.params req) in
  try_catch
    (existingUser <- pool_query (select_users_by_id userId) ;;
     if (List.length existingUser =? 0)%nat
     then json 404 (error_obj "User not found.")
     else
       pool_query (update_user_verified userId) ;;;
       json 200 (message_obj "User verified successfully."))
    (fun _ => json 500 (error_obj "Failed to verify user.")).

Definition createCourse (req : Req.t) : M Res.t :=
  let b := Req.body req in
  try_catch
    (result <- pool_query
                 (insert_course (Body.name b) (Body.description b)
                    (Body.instructor b)) ;;
     json_row0 201 course_json result)
    (fun _ => json 500 (error_obj "Failed to create course.")).

Definition createAssignment (req : Req.t) : M Res.t :=
  let b := Req.body req in
  try_catch
    (result <- pool_query
                 (insert_assignment (Body.title b) (Body.description b)
                    (Body.due_date b) (Body.course_id b)) ;;
     json_row0 201 assignment_json result)
    (fun _ => json 500 (error_obj "Failed to create assignment.")).

Definition trackCourse (req : Req.t) : M Res.t :=
  let userId := Params.userId (Req.params req) in
  let courseId := Params.courseId (Req.params req) in
  try_catch
    (existingUser <- pool_query (select_users_by_id userId) ;;
     if (List.length existingUser =? 0)%nat
     then json 404 (error_obj "User not found.")
     else
       addTrackedCourse userId courseId ;;;
       json 200 (message_obj "Course added to tracked list."))
    (fun _ => json 500 (error_obj "Failed to add course to tracked list.")).

Definition untrackCourse (req : Req.t) : M Res.t :=
  let userId := Params.userId (Req.params req) in
  let courseId := Params.courseId (Req.params req) in
  try_catch
    (existingUser <- pool_query (select_users_by_id userId) ;;
     if (List.length existingUser =? 0)%nat
     then json 404 (error_obj "User not found.")
     else
       removeTrackedCourse userId courseId ;;;
       json 200 (message_obj "Course removed from tracked list."))
    (fun _ => json 500 (error_obj "Failed to remove course from tracked list.")).

Definition getAllUsers (req : Req.t) : M Res.t :=
  try_catch
    (result <- pool_query select_users ;;
     json_rows 200 user_json result)
    (fun _ => json 500 (error_obj "Failed to fetch users.")).

Definition getVerifiedUsers (req : Req.t) : M Res.t :=
  try_catch
    (result <- pool_query (select_users_verified true) ;;
     json_rows 200 user_json result)
    (fun _ => json 500 (error_obj "Failed to fetch verified users.")).

Definition getUnverifiedUsers (req : Req.t) : M Res.t :=
  try_catch
    (result <- pool_query (select_users_verified false) ;;
     json_rows 200 user_json result)
    (fun _ => json 500 (error_obj "Failed to fetch unverified users.")).

Definition getAllCourses (req : Req.t) : M Res.t :=
  try_catch
    (result <- pool_query select_courses ;;
     json_rows 200 course_json result)
    (fun _ => json 500 (error_obj "Failed to fetch courses.")).

Definition getAllAssignments (req : Req.t) : M Res.t :=
  try_catch
    (result <- pool_query select_assignments ;;
     json_rows 200 assignment_json result)
    (fun _ => json 500 (error_obj "Failed to fetch assignments.")).

Definition getTrackedCoursesForUser (req : Req.t) : M Res.t :=
  let userId := Params.userId (Req.params req) in
  try_catch
    (existingUser <- pool_query (select_users_by_id userId) ;;
     if (List.length existingUser =? 0)%nat
     then json 404 (error_obj "User not found.")
     else
       courses <- getTrackedCourses userId ;;
       json 200 (JArr (map JNum courses)))
    (fun _ => json 500 (error_obj "Failed to fetch tracked courses.")).

Definition updateCourse (req : Req.t) : M Res.t :=
  let id := Params.id (Req.params req) in
  let b := Req.body req in
  try_catch
    (result <- pool_query
                 (update_course (Body.name b) (Body.description b)
                    (Body.instructor b) id) ;;
     if (List.length result =? 0)%nat
     then json 404 (error_obj "Course not found.")
     else json_row0 200 course_json result)
    (fun _ => json 500 (error_obj "Failed to update course.")).

Definition updateAssignment (req : Req.t) : M Res.t :=
  let id := Params.id (Req.params req) in
  let b := Req.body req in
  try_catch
    (result <- pool_query
                 (update_assignment (Body.title b) (Body.description b)
                    (Body.due_date b) (Body.course_id b) id) ;;
     if (List.length result =? 0)%nat
     then json 404 (error_obj "Assignment not found.")
     else json_row0 200 assignment_json result)
    (fun _ => json 500 (error_obj "Failed to update assignment.")).

Definition deleteCourse (req : Req.t) : M Res.t :=
  let id := Params.id (Req.params req) in
  try_catch
    (result <- pool_query (delete_course id) ;;
     if (List.length result =? 0)%nat
     then json 404 (error_obj "Course not found.")
     else send_empty 204)
    (fun _ => json 500 (error_obj "Failed to delete course.")).

Definition deleteAssignment (req : Req.t) : M Res.t :=
  let id := Params.id (Req.params req) in
  try_catch
    (result <- pool_query (delete_assignment id) ;;
     if (List.length result =? 0)%nat
     then json 404 (error_obj "Assignment not found.")
     else send_empty 204)
    (fun _ => json 500 (error_obj "Failed to delete assignment.")).
End Handlers.
End Earlier.

(** ** Route handlers of [app.js], second definitions (lines 546 to 725) *)

Module Later.
Section Handlers.
Context {bc : Bcrypt}.

Definition uploadAssignment (req : Req.t) : M Res.t :=
  let b := Req.body req in
  result <- pool_query
              (insert_assignment (Body.title b) (Body.description b)
                 (Body.due_date b) (Body.course_id b)) ;;
  json_row0 201 assignment_json result.

Definition loginUser (req : Req.t) : M Res.t :=
  let b := Req.body req in
  us <- read_users ;;
  match find (fun u => opt_eqb (Body.email b) (mu_email u)) us with
  | None => send_text 404 "User not found"
  | Some user =>
      passwordIsValid <- bcrypt_compareSync (Body.password b) (mu_password user) ;;
      if negb passwordIsValid
      then send_text 401 "Invalid password"
      else
        secret <- read_SECRET ;;
        token <- jwt_sign [("id"%string, JNum (mu_id user));
                           ("verified"%string, JBool (mu_verified user))]
                          secret 86400 ;;
        ret (Res.mk 200 (Res.Session true token))
  end.

Definition createUser (req : Req.t) : M Res.t :=
  let b := Req.body req in
  existingUser <- pool_query (select_users_by_email (Body.email b)) ;;
  if (0 <? List.length existingUser)%nat
  then json 400 (message_obj "Email already exists")
  else
    passwordHash <- bcrypt_hashSync (Body.password b) 8 ;;
    result <- pool_query (insert_user (Body.email b) passwordHash false) ;;
    json_row0 201 user_json result.

Definition verifyUser (req : Req.t) : M Res.t :=
  let userId := Params.userId (Req.params req) in
  existingUser <- pool_query (select_users_by_id userId) ;;
  if (List.length existingUser =? 0)%nat
  then json 404 (message_obj "User not found")
  else
    pool_query (update_user_verified userId) ;;;
    json 200 (message_obj "User verified successfully").

Definition createCourse (req : Req.t) : M Res.t :=
  let b := Req.body req in
  result <- pool_query
              (insert_course (Body.name b) (Body.description b)
                 (Body.instructor b)) ;;
  json_row0 201 course_json result.

Definition createAssignment (req : Req.t) : M Res.t :=
  let b := Req.body req in
  result <- pool_query
              (insert_assignment (Body.title b) (Body.description b)
                 (Body.due_date b) (Body.course_id b)) ;;
  json_row0 201 assignment_json result.

Definition trackCourse (req : Req.t) : M Res.t :=
  let userId := Params.userId (Req.params req) in
  let courseId := Params.courseId (Req.params req) in
  existingUser <- pool_query (select_users_by_id userId) ;;
  if (List.length existingUser =? 0)%nat
  then json 404 (message_obj "User not found")
  else
    addTrackedCourse userId courseId ;;;
    json 200 (message_obj "Course added to tracked list").

Definition untrackCourse (req : Req.t) : M Res.t :=
  let userId := Params.userId (Req.params req) in
  let courseId := Params.courseId (Req.params req) in
  existingUser <- pool_query (select_users_by_id userId) ;;
  if (List.length existingUser =? 0)%nat
  then json 404 (message_obj "User not found")
  else
    removeTrackedCourse userId courseId ;;;
    json 200 (message_obj "Course removed from tracked list").

Definition getAllUsers (req : Req.t) : M Res.t :=
  result <- pool_query select_users ;;
  json_rows 200 user_json result.

Definition getVerifiedUsers (req : Req.t) : M Res.t :=
  result <- pool_query (select_users_verified true) ;;
  json_rows 200 user_json result.

Definition getUnverifiedUsers (req : Req.t) : M Res.t :=
  result <- pool_query (select_users_verified false) ;;
  json_rows 200 user_json result.

Definition getAllCourses (req : Req.t) : M Res.t :=
  result <- pool_query select_courses ;;
  json_rows 200 course_json result.

Definition getAllAssignments (req : Req.t) : M Res.t :=
  result <- pool_query select_assignments ;;
  json_rows 200 assignment_json result.

Definition getTrackedCoursesForUser (req : Req.t) : M Res.t :=
  let userId := Params.userId (Req.params req) in
  existingUser <- pool_query (select_users_by_id userId) ;;
  if (List.length existingUser =? 0)%nat
  then json 404 (message_obj "User not found")
  else
    courses <- getTrackedCourses userId ;;
    json 200 (JArr (map JNum courses)).

Definition updateCourse (req : Req.t) : M Res.t :=
  let id := Params.id (Req.params req) in
  let b := Req.body req in
  result <- pool_query
              (update_course (Body.name b) (Body.description b)
                 (Body.instructor b) id) ;;
  json_row0 200 course_json result.

Definition updateAssignment (req : Req.t) : M Res.t :=
  let id := Params.id (Req.params req) in
  let b := Req.body req in
  result <- pool_query
              (update_assignment (Body.title b) (Body.description b)
                 (Body.due_date b) (Body.course_id b) id) ;;
  json_row0 200 assignment_json result.

Definition deleteCourse (req : Req.t) : M Res.t :=
  let id := Params.id (Req.params req) in
  pool_query (delete_course id) ;;;
  send_empty 204.

Definition deleteAssignment (req : Req.t) : M Res.t :=
  let id := Params.id (Req.params req) in
  pool_query (delete_assignment id) ;;;
  send_empty 204.
End Handlers.
End Later.

(** ** Routing *)

(** The routes registered by [app.post], [app.get], [app.put] and
    [app.delete]. *)
Inductive Route :=
| POST_assignments_attach
| POST_users_login
| POST_users_create
| POST_users_verify
| POST_courses
| POST_assignments
| POST_users_track_course
| POST_users_untrack_course
| GET_users
| GET_users_verified
| GET_users_unverified
| GET_courses
| GET_assignments
| GET_users_tracked_courses
| PUT_courses
| PUT_assignments
| DELETE_courses
| DELETE_assignments.

(** A name declared twice by [function] denotes its last declaration, so
    the handlers that serve the routes are the second definitions. *)
Module Effective.
Section Handlers.
Context {bc : Bcrypt}.

Definition handler (r : Route) : Req.t -> M Res.t :=
  match r with
  | POST_assignments_attach => Later.uploadAssignment
  | POST_users_login => Later.loginUser
  | POST_users_create => Later.createUser
  | POST_users_verify => Later.verifyUser
  | POST_courses => Later.createCourse
  | POST_assignments => Later.createAssignment
  | POST_users_track_course => Later.trackCourse
  | POST_users_untrack_course => Later.untrackCourse
  | GET_users => Later.getAllUsers
  | GET_users_verified => Later.getVerifiedUsers
  | GET_users_unverified => Later.getUnverifiedUsers
  | GET_courses => Later.getAllCourses
  | GET_assignments => Later.getAllAssignments
  | GET_users_tracked_courses => Later.getTrackedCoursesForUser
  | PUT_courses => Later.updateCourse
  | PUT_assignments => Later.updateAssignment
  | DELETE_courses => Later.deleteCourse
  | DELETE_assignments => Later.deleteAssignment
  end.
End Handlers.
End Effective.

(** The same table over the first definitions. *)
Definition earlier_handler {bc : Bcrypt} (r : Route) : Req.t -> M Res.t :=
  match r with
  | POST_assignments_attach => Earlier.uploadAssignment
  | POST_users_login => Earlier.loginUser
  | POST_users_create => Earlier.createUser
  | POST_users_verify => Earlier.verifyUser
  | POST_courses => Earlier.createCourse
  | POST_assignments => Earlier.createAssignment
  | POST_users_track_course => Earlier.trackCourse
  | POST_users_untrack_course => Earlier.untrackCourse
  | GET_users => Earlier.getAllUsers
  | GET_users_verified => Earlier.getVerifiedUsers
  | GET_users_unverified => Earlier.getUnverifiedUsers
  | GET_courses => Earlier.getAllCourses
  | GET_assignments => Earlier.getAllAssignments
  | GET_users_tracked_courses => Earlier.getTrackedCoursesForUser
  | PUT_courses => Earlier.updateCourse
  | PUT_assignments => Earlier.updateAssignment
  | DELETE_courses => Earlier.deleteCourse
  | DELETE_assignments => Earlier.deleteAssignment
  end.

(** ** Observations used in the statements *)

(** The store completes the next [n] round trips. *)
Definition quiet (n : nat) (w : World) : bool :=
  forallb negb (firstn n (faults w)).

(** One round trip consumed. *)
Definition tick (w : World) : World := with_faults (tl (faults w)) w.

(** The first row of [users] with the given identifier, as
    [result.rows[0]] of a selection by [id]. *)
Definition user_by_id (userId : Z) (d : Db) : option Users.row :=
  find (fun r => Users.id r =? userId) (users_tbl d).

(** The tracked list of a user, when the user exists. *)
Definition tracked_of (userId : Z) (d : Db) : option (list Z) :=
  option_map Users.tracked_courses (user_by_id userId d).

(** A toy instance of bcryptjs for concrete runs: the hash shows its
    password, and matches exactly that password. *)
Definition toy_hash (p : string) : string := String.append "$2a$" p.

Definition toy_bcrypt : Bcrypt := {|
  hashSync := fun p _ _ => toy_hash p;
  compareSync := fun p h => String.eqb (toy_hash p) h
|}.

Definition empty_db : Db := mkDb [] 0 [] 0 [] 0.

Definition no_globals : Globals := mkGlobals None None.

Definition world_of (d : Db) (g : Globals) (f : list bool) : World :=
  mkWorld d g f 0 0 1700000000.

Definition no_body : Body.t :=
  Body.mk None None None None None None None None.

Definition req_of (id userId courseId : Z) (b : Body.t) : Req.t :=
  Req.mk (Params.mk id userId courseId) b.

Definition status_of (x : Result Res.t * World) : option nat :=
  match fst x with
  | Ok r => Some (Res.status r)
  | Throw _ => None
  end.

(** The user [loginUser] picks: the first element of [users] whose [email]
    is strictly equal to the one of the request. *)
Definition found_user (req : Req.t) (us : list MemUser) : option MemUser :=
  find (fun u => opt_eqb (Body.email (Req.body req)) (mu_email u)) us.

(** The token [loginUser] asks [jwt.sign] for. *)
Definition issued_for (user : MemUser) (secret : string) (t0 : Z)
    (tok : Token) : Prop :=
  tk_payload tok = [("id"%string, JNum (mu_id user));
                    ("verified"%string, JBool (mu_verified user))] /\
  tk_key tok = secret /\
  tk_iat tok = t0 /\
  tk_exp tok = t0 + 86400.

(** What one definition answers and what the other does, and that the two
    runs differ. *)
Definition answers_differently (h1 h2 : Req.t -> M Res.t) (req : Req.t)
    (w : World) (s1 : nat) (r2 : Result Res.t) : Prop :=
  status_of (h1 req w) = Some s1 /\
  fst (h2 req w) = r2 /\
  h1 req w <> h2 req w.

(** The body of the response shows a [password_hash] property. *)
Definition leaks (r : Res.t) : bool :=
  Res.content_has_key "password_hash" (Res.body r).

(** Every response of [m] that shows the hash satisfies [P]. *)
Definition leaks_only_if (P : Res.t -> Prop) (m : M Res.t) : Prop :=
  forall w r w', m w = (Ok r, w') -> leaks r = true -> P r.

(** The responses of a route that may show the hash. *)
Definition may_leak (route : Route) (r : Res.t) : Prop :=
  match route with
  | POST_users_create => Res.status r = 201%nat
  | GET_users | GET_users_verified | GET_users_unverified =>
      Res.status r = 200%nat
  | _ => False
  end.

Definition login_body (e p : string) : Body.t :=
  Body.mk (Some e) (Some p) None None None None None None.

Definition course_body (n : string) : Body.t :=
  Body.mk None None (Some n) None None None None None.

Definition assignment_body (t : string) : Body.t :=
  Body.mk None None None None None (Some t) None None.

Definition alice : MemUser := mkMemUser 7 "a@x.com" (toy_hash "pw1") true.

Definition login_world : World :=
  world_of empty_db (mkGlobals (Some "s3cret"%string) (Some [alice])) [].

Definition two_users_db : Db :=
  mkDb [Users.mk 1 "a@x.com" "$2a$pw1" true [5; 7; 5];
        Users.mk 2 "b@x.com" "$2a$pw2" false [5]] 2 [] 0 [] 0.

Definition one_user_db : Db :=
  mkDb [Users.mk 1 "a@x.com" "$2a$pw1" true []] 1 [] 0 [] 0.

Definition catalog_db : Db :=
  mkDb [Users.mk 1 "a@x.com" "$2a$pw1" true [5; 6]] 1
       [Courses.mk 5 "Logic" None None; Courses.mk 6 "Algebra" None None] 6
       [] 0.

(** ** Invariants and frames used in the further properties *)

(** [m] keeps [I]: whatever [m] does, a world in [I] ends in [I]. *)
Definition keeps {A} (I : World -> Prop) (m : M A) : Prop :=
  forall w, I w -> I (snd (m w)).

(** The same for a statement and a property of the database. *)
Definition stmt_keeps {A} (J : Db -> Prop) (s : Statement A) : Prop :=
  forall d, J d -> J (snd (s d)).

Definition on_db (J : Db -> Prop) (w : World) : Prop := J (db w).

(** The writing statements a route sends, required to keep [J]. *)
Definition route_statements_keep (J : Db -> Prop) (route : Route) : Prop :=
  match route with
  | POST_assignments_attach | POST_assignments =>
      forall t ds due c, stmt_keeps J (insert_assignment t ds due c)
  | POST_users_create => forall e h v, stmt_keeps J (insert_user e h v)
  | POST_users_verify => forall i, stmt_keeps J (update_user_verified i)
  | POST_courses => forall n ds ins, stmt_keeps J (insert_course n ds ins)
  | POST_users_track_course =>
      forall c u, stmt_keeps J (update_tracked_append c u)
  | POST_users_untrack_course =>
      forall c u, stmt_keeps J (update_tracked_remove c u)
  | PUT_courses => forall n ds ins i, stmt_keeps J (update_course n ds ins i)
  | PUT_assignments =>
      forall t ds due c i, stmt_keeps J (update_assignment t ds due c i)
  | DELETE_courses => forall i, stmt_keeps J (delete_course i)
  | DELETE_assignments => forall i, stmt_keeps J (delete_assignment i)
  | POST_users_login | GET_users | GET_users_verified | GET_users_unverified
  | GET_courses | GET_assignments | GET_users_tracked_courses => True
  end.

(** The routes that only read. *)
Definition reads_only (route : Route) : bool :=
  match route with
  | POST_users_login | GET_users | GET_users_verified | GET_users_unverified
  | GET_courses | GET_assignments | GET_users_tracked_courses => true
  | _ => false
  end.

(** No assignment has a file attached. *)
Definition no_file_path (d : Db) : Prop :=
  forall a, In a (assignments_tbl d) -> Assignments.file_path a = None.

(** The routes under [/api/users]. *)
Definition users_route (route : Route) : bool :=
  match route with
  | POST_users_login | POST_users_create | POST_users_verify
  | POST_users_track_course | POST_users_untrack_course
  | GET_users | GET_users_verified | GET_users_unverified
  | GET_users_tracked_courses => true
  | _ => false
  end.

(** The part of the database behind [/api/users], and the part behind
    [/api/courses] and [/api/assignments]. *)
Definition users_part (d : Db) : list Users.row * Z :=
  (users_tbl d, users_id_seq d).

Definition catalog_part (d : Db)
  : list Courses.row * Z * list Assignments.row * Z :=
  (courses_tbl d, courses_id_seq d, assignments_tbl d, assignments_id_seq d).

(** The routes that update or delete a row named by [:id]. *)
Definition writes_by_id (route : Route) : bool :=
  match route with
  | PUT_courses | PUT_assignments | DELETE_courses | DELETE_assignments => true
  | _ => false
  end.

(** The routes that name a user by [:userId]. *)
Definition by_user_id (route : Route) : bool :=
  match route with
  | POST_users_verify | POST_users_track_course | POST_users_untrack_course
  | GET_users_tracked_courses => true
  | _ => false
  end.

(** The body [res.json(courses)] of the tracked-courses route. *)
Definition courses_body (l : list Z) : Res.content :=
  Res.Data (JArr (map JNum l)).

(** Track, list, untrack, list, served by the handlers [h], for a user whose
    list is [old]: each request is answered 200 and the two listings show
    [old] with the course appended, then [old] without the course. *)
Definition tracked_scenario (h : Route -> Req.t -> M Res.t) (req : Req.t)
    (w : World) (old : list Z) : Prop :=
  let c := Params.courseId (Req.params req) in
  exists w1 w2 w3 w4 r1 r3,
    h POST_users_track_course req w = (Ok r1, w1) /\
    Res.status r1 = 200%nat /\
    h GET_users_tracked_courses req w1 =
      (Ok (Res.mk 200 (courses_body (old ++ [c]))), w2) /\
    h POST_users_untrack_course req w2 = (Ok r3, w3) /\
    Res.status r3 = 200%nat /\
    h GET_users_tracked_courses req w3 =
      (Ok (Res.mk 200 (courses_body (array_remove old c))), w4).

(** The row [createUser] inserts for an email and a password. *)
Definition new_user {bc : Bcrypt} (w : World) (e p : string) : Users.row :=
  Users.mk (users_id_seq (db w) + 1) e (hashSync p 8 (seed w)) false [].

(** The first course with the given identifier. *)
Definition course_by_id (i : Z) (d : Db) : option Courses.row :=
  find (fun r => Courses.id r =? i) (courses_tbl d).

(** Some assignment references course [i]. *)
Definition referenced (i : Z) (d : Db) : Prop :=
  exists a, In a (assignments_tbl d) /\ Assignments.course_id a = Some i.

(** The body [res.json(result.rows)] of the user listings. *)
Definition users_body (rows : list Users.row) : Res.content :=
  Res.Data (JArr (map user_json rows)).

Definition referenced_db : Db :=
  mkDb [] 0
       [Courses.mk 5 "Logic" None None] 5
       [Assignments.mk 1 "Essay" None None (Some 5) None] 1.


(** The rows of [users] that a listing route selects; [None] for the other
    routes. *)
Definition listed_users (route : Route) (d : Db) : option (list Users.row) :=
  match route with
  | GET_users => Some (users_tbl d)
  | GET_users_verified =>
      Some (filter (fun r => Users.verified r) (users_tbl d))
  | GET_users_unverified =>
      Some (filter (fun r => negb (Users.verified r)) (users_tbl d))
  | _ => None
  end.

(** * Properties *)

(** ** Running the helpers of [db.js] on a quiet store *)

Lemma quiet_le (n m : nat) (w : World) :
  (n <= m)%nat -> quiet m w = true -> quiet n w = true.
Proof.
  unfold quiet. revert m. generalize (faults w) as f.
  induction n as [|n IH]; intros f m Hle H; [reflexivity|].
  destruct m as [|m]; [lia|].
  destruct f as [|b f]; [reflexivity|].
  simpl in *. apply andb_true_iff in H. destruct H as [Hb H].
  rewrite Hb. simpl. apply (IH f m); [lia|exact H].
Qed.

Lemma quiet_tick (n : nat) (w : World) :
  quiet (S n) w = true -> quiet n (tick w) = true.
Proof.
  unfold quiet, tick. destruct w as [d g f l s t]. simpl.
  destruct f as [|b f]; simpl.
  - intros _. destruct n; reflexivity.
  - intros H. apply andb_true_iff in H. apply H.
Qed.

Lemma round_trip_quiet {A} (stmt : Statement A) (w : World) :
  quiet 1 w = true ->
  round_trip stmt w = (fst (stmt (db w)), with_db (snd (stmt (db w))) (tick w)).
Proof.
  unfold quiet, round_trip, tick. destruct w as [d g f l s t]. simpl.
  destruct f as [|[|] f]; simpl; try discriminate;
    intros _; destruct (stmt d); reflexivity.
Qed.

Lemma round_trip_fault {A} (stmt : Statement A) (w : World) (fs : list bool) :
  faults w = true :: fs ->
  round_trip stmt w = (Throw (PgError connection_failure), tick w).
Proof.
  unfold round_trip, tick. intros ->. reflexivity.
Qed.

Lemma pool_connect_quiet (w : World) :
  quiet 1 w = true ->
  pool_connect w = (Ok tt, with_leased (S (leased w)) (tick w)).
Proof.
  unfold quiet, pool_connect, tick. destruct w as [d g f l s t]. simpl.
  destruct f as [|[|] f]; simpl; try discriminate; reflexivity.
Qed.

Lemma db_tick (w : World) : db (tick w) = db w.
Proof. reflexivity. Qed.

Section TrackedCourses.
Variables userId courseId : Z.

Lemma addTrackedCourse_run (w : World) :
  quiet 2 w = true ->
  addTrackedCourse userId courseId w =
  (Ok tt,
   with_db (snd (update_tracked_append courseId userId (db w)))
           (tick (tick w))).
Proof.
  unfold quiet, addTrackedCourse, bind, try_finally, client_query,
    round_trip, pool_connect, client_release, tick.
  destruct w as [d g f l s t]. simpl.
  destruct f as [|[|] [|[|] f]]; simpl; try discriminate; reflexivity.
Qed.

Lemma removeTrackedCourse_run (w : World) :
  quiet 2 w = true ->
  removeTrackedCourse userId courseId w =
  (Ok tt,
   with_db (snd (update_tracked_remove courseId userId (db w)))
           (tick (tick w))).
Proof.
  unfold quiet, removeTrackedCourse, bind, try_finally, client_query,
    round_trip, pool_connect, client_release, tick.
  destruct w as [d g f l s t]. simpl.
  destruct f as [|[|] [|[|] f]]; simpl; try discriminate; reflexivity.
Qed.

Lemma first_selected {A B} (f : A -> B) (p : A -> bool) (l : list A) :
  hd_error (map f (filter p l)) = option_map f (find p l).
Proof.
  induction l as [|a l IH]; simpl; [reflexivity|].
  destruct (p a); simpl; [reflexivity|exact IH].
Qed.

Lemma getTrackedCourses_run (w : World) :
  quiet 2 w = true ->
  getTrackedCourses userId w =
  (match tracked_of userId (db w) with
   | Some l => Ok l
   | None => Throw (TypeError "Cannot read properties of undefined")
   end, tick (tick w)).
Proof.
  unfold tracked_of, user_by_id.
  rewrite <- (first_selected Users.tracked_courses).
  unfold quiet, getTrackedCourses, bind, try_finally, client_query,
    round_trip, pool_connect, client_release, tick, select_tracked_courses.
  destruct w as [d g f l s t]. simpl.
  destruct f as [|[|] [|[|] f]]; simpl; try discriminate; intros _;
    destruct (map Users.tracked_courses
                (filter (fun r => Users.id r =? userId) (users_tbl d)));
    reflexivity.
Qed.

(** What the two updates do to the list of each user. *)
Lemma find_map_same_id (g : Users.row -> Users.row) (u : Z)
    (l : list Users.row) :
  (forall r, Users.id (g r) = Users.id r) ->
  find (fun r => Users.id r =? u) (map g l) =
  option_map g (find (fun r => Users.id r =? u) l).
Proof.
  intros Hg. induction l as [|a l IH]; simpl; [reflexivity|].
  rewrite Hg. destruct (Users.id a =? u); [reflexivity|exact IH].
Qed.

Lemma tracked_after_append (u : Z) (d : Db) :
  tracked_of u (snd (update_tracked_append courseId userId d)) =
  option_map (fun l => if u =? userId then array_append l courseId else l)
             (tracked_of u d).
Proof.
  unfold tracked_of, user_by_id, update_tracked_append. simpl.
  rewrite find_map_same_id by (intros r; destruct (Users.id r =? userId); reflexivity).
  destruct (find (fun r => Users.id r =? u) (users_tbl d)) as [r|] eqn:E;
    [|reflexivity].
  apply find_some in E. destruct E as [_ E]. apply Z.eqb_eq in E. subst u.
  simpl. destruct (Users.id r =? userId); reflexivity.
Qed.

Lemma tracked_after_remove (u : Z) (d : Db) :
  tracked_of u (snd (update_tracked_remove courseId userId d)) =
  option_map (fun l => if u =? userId then array_remove l courseId else l)
             (tracked_of u d).
Proof.
  unfold tracked_of, user_by_id, update_tracked_remove. simpl.
  rewrite find_map_same_id by (intros r; destruct (Users.id r =? userId); reflexivity).
  destruct (find (fun r => Users.id r =? u) (users_tbl d)) as [r|] eqn:E;
    [|reflexivity].
  apply find_some in E. destruct E as [_ E]. apply Z.eqb_eq in E. subst u.
  simpl. destruct (Users.id r =? userId); reflexivity.
Qed.
End TrackedCourses.

(** [array_remove] leaves no occurrence, keeps every other element with its
    multiplicity and order, and is the identity on a list without [x]. *)
Lemma array_remove_not_in (a : list Z) (x : Z) : ~ In x (array_remove a x).
Proof.
  unfold array_remove. intros H. apply filter_In in H. destruct H as [_ H].
  rewrite Z.eqb_refl in H. discriminate.
Qed.

Lemma array_remove_count (a : list Z) (x y : Z) :
  y <> x ->
  count_occ Z.eq_dec (array_remove a x) y = count_occ Z.eq_dec a y.
Proof.
  intros Hy. unfold array_remove. induction a as [|z a IH]; simpl; [reflexivity|].
  destruct (Z.eqb_spec z x) as [->|Hz]; simpl.
  - destruct (Z.eq_dec x y); [congruence|exact IH].
  - destruct (Z.eq_dec z y); simpl; rewrite IH; reflexivity.
Qed.

Lemma array_remove_absent (a : list Z) (x : Z) :
  ~ In x a -> array_remove a x = a.
Proof.
  unfold array_remove. induction a as [|z a IH]; simpl; intros H; [reflexivity|].
  destruct (Z.eqb_spec z x) as [->|Hz]; simpl.
  - exfalso. apply H. left. reflexivity.
  - rewrite IH; [reflexivity|]. intros Hin. apply H. right. exact Hin.
Qed.

Lemma array_append_count (a : list Z) (x : Z) :
  count_occ Z.eq_dec (array_append a x) x = S (count_occ Z.eq_dec a x).
Proof.
  unfold array_append. rewrite count_occ_app. simpl.
  destruct (Z.eq_dec x x); [lia|congruence].
Qed.

Lemma update_tracked_remove_noop (userId courseId : Z) (d : Db) :
  (forall r, In r (users_tbl d) -> Users.id r = userId ->
             ~ In courseId (Users.tracked_courses r)) ->
  snd (update_tracked_remove courseId userId d) = d.
Proof.
  intros H. unfold update_tracked_remove, with_users. simpl.
  replace (map _ (users_tbl d)) with (users_tbl d); [destruct d; reflexivity|].
  rewrite <- (map_id (users_tbl d)) at 1. apply map_ext_in.
  intros r Hr. destruct (Z.eqb_spec (Users.id r) userId) as [E|E]; [|reflexivity].
  rewrite array_remove_absent by (apply H; assumption).
  destruct r; reflexivity.
Qed.

(** ** C1: untracking removes every occurrence *)

(** C1.  For an existing user whose tracked list is [old], and while the
    store completes its round trips, [removeTrackedCourse userId courseId]
    does not raise; the [getTrackedCourses userId] that follows returns [old]
    without any occurrence of [courseId], every other identifier keeping its
    multiplicity; when [courseId] is absent from [old] the list returned is
    [old] itself, and when no row of that user carries it the database is
    left as it was; the lists of the other users are untouched. *)
Theorem removeTrackedCourse_removes_every_occurrence
    (userId courseId : Z) (w : World) (old : list Z) :
  quiet 4 w = true ->
  tracked_of userId (db w) = Some old ->
  exists w1 w2 l,
    removeTrackedCourse userId courseId w = (Ok tt, w1) /\
    getTrackedCourses userId w1 = (Ok l, w2) /\
    l = array_remove old courseId /\
    ~ In courseId l /\
    (forall c, c <> courseId ->
               count_occ Z.eq_dec l c = count_occ Z.eq_dec old c) /\
    (~ In courseId old -> l = old) /\
    ((forall r, In r (users_tbl (db w)) -> Users.id r = userId ->
                ~ In courseId (Users.tracked_courses r)) ->
     db w1 = db w) /\
    (forall u, u <> userId -> tracked_of u (db w1) = tracked_of u (db w)).
Proof.
  intros Hq Hold.
  pose proof (removeTrackedCourse_run userId courseId w
                (quiet_le 2 4 w ltac:(lia) Hq)) as R1.
  set (w1 := with_db (snd (update_tracked_remove courseId userId (db w)))
                     (tick (tick w))) in *.
  assert (Hq1 : quiet 2 w1 = true).
  { apply (quiet_tick 2 (tick w)). apply (quiet_tick 3 w). exact Hq. }
  assert (Ht : forall u, tracked_of u (db w1) =
                         option_map (fun l => if u =? userId
                                              then array_remove l courseId
                                              else l) (tracked_of u (db w))).
  { intros u. apply tracked_after_remove. }
  pose proof (getTrackedCourses_run userId w1 Hq1) as R2.
  rewrite Ht, Hold in R2. simpl in R2. rewrite Z.eqb_refl in R2.
  exists w1, (tick (tick w1)), (array_remove old courseId).
  repeat split.
  - exact R1.
  - exact R2.
  - apply array_remove_not_in.
  - intros c Hc. apply array_remove_count. exact Hc.
  - apply array_remove_absent.
  - intros H. apply update_tracked_remove_noop. exact H.
  - intros u Hu. rewrite Ht. apply Z.eqb_neq in Hu. rewrite Hu.
    destruct (tracked_of u (db w)); reflexivity.
Qed.

Lemma removeTrackedCourse_removes_every_occurrence_witness :
  exists w1 w2 l,
    removeTrackedCourse 1 5 (world_of two_users_db no_globals []) = (Ok tt, w1) /\
    getTrackedCourses 1 w1 = (Ok l, w2) /\
    l = array_remove [5; 7; 5] 5 /\
    ~ In 5 l /\
    (forall c, c <> 5 ->
               count_occ Z.eq_dec l c = count_occ Z.eq_dec [5; 7; 5] c) /\
    (~ In 5 [5; 7; 5] -> l = [5; 7; 5]) /\
    ((forall r, In r (users_tbl two_users_db) -> Users.id r = 1 ->
                ~ In 5 (Users.tracked_courses r)) ->
     db w1 = two_users_db) /\
    (forall u, u <> 1 -> tracked_of u (db w1) = tracked_of u two_users_db).
Proof.
  apply (removeTrackedCourse_removes_every_occurrence
           1 5 (world_of two_users_db no_globals []) [5; 7; 5]); reflexivity.
Defined.

(** ** C2: tracking twice stores two entries *)

(** C2.  For an existing user whose tracked list is [old], and while the
    store completes its round trips, two calls of
    [addTrackedCourse userId courseId] both succeed and the
    [getTrackedCourses userId] that follows returns [old] followed by
    [courseId] twice: nothing is deduplicated and the order of insertion is
    kept. *)
Theorem addTrackedCourse_twice_stores_two_entries
    (userId courseId : Z) (w : World) (old : list Z) :
  quiet 6 w = true ->
  tracked_of userId (db w) = Some old ->
  exists w1 w2 w3,
    addTrackedCourse userId courseId w = (Ok tt, w1) /\
    addTrackedCourse userId courseId w1 = (Ok tt, w2) /\
    getTrackedCourses userId w2 = (Ok (old ++ [courseId; courseId]), w3) /\
    count_occ Z.eq_dec (old ++ [courseId; courseId]) courseId =
    S (S (count_occ Z.eq_dec old courseId)).
Proof.
  intros Hq Hold.
  pose proof (addTrackedCourse_run userId courseId w
                (quiet_le 2 6 w ltac:(lia) Hq)) as R1.
  set (w1 := with_db (snd (update_tracked_append courseId userId (db w)))
                     (tick (tick w))) in *.
  assert (Hq1 : quiet 4 w1 = true).
  { apply (quiet_tick 4 (tick w)). apply (quiet_tick 5 w). exact Hq. }
  pose proof (addTrackedCourse_run userId courseId w1
                (quiet_le 2 4 w1 ltac:(lia) Hq1)) as R2.
  set (w2 := with_db (snd (update_tracked_append courseId userId (db w1)))
                     (tick (tick w1))) in *.
  assert (Hq2 : quiet 2 w2 = true).
  { apply (quiet_tick 2 (tick w1)). apply (quiet_tick 3 w1). exact Hq1. }
  pose proof (getTrackedCourses_run userId w2 Hq2) as R3.
  assert (Ht : tracked_of userId (db w2) = Some (old ++ [courseId; courseId])).
  { replace (db w2) with (snd (update_tracked_append courseId userId (db w1)))
      by reflexivity.
    rewrite tracked_after_append.
    replace (db w1) with (snd (update_tracked_append courseId userId (db w)))
      by reflexivity.
    rewrite tracked_after_append, Hold. simpl.
    rewrite Z.eqb_refl. unfold array_append. rewrite <- app_assoc. reflexivity. }
  rewrite Ht in R3.
  exists w1, w2, (tick (tick w2)). repeat split; try assumption.
  rewrite count_occ_app. simpl. destruct (Z.eq_dec courseId courseId); [lia|congruence].
Qed.

Lemma addTrackedCourse_twice_stores_two_entries_witness :
  exists w1 w2 w3,
    addTrackedCourse 1 5 (world_of one_user_db no_globals []) = (Ok tt, w1) /\
    addTrackedCourse 1 5 w1 = (Ok tt, w2) /\
    getTrackedCourses 1 w2 = (Ok [5; 5], w3) /\
    count_occ Z.eq_dec [5; 5] 5 = 2%nat.
Proof.
  apply (addTrackedCourse_twice_stores_two_entries
           1 5 (world_of one_user_db no_globals []) []); reflexivity.
Defined.

(** ** Login: C3, C4 and C9 *)

Ltac login_unfold :=
  unfold Earlier.loginUser, Later.loginUser, bind, read_users, read_SECRET,
    bcrypt_compareSync, jwt_sign, json, send_text, ret, throw, found_user in *.

Section Login.
Context {bc : Bcrypt}.

(** Unknown email: 404 from both definitions. *)
Lemma loginUser_unknown (req : Req.t) (w : World) (us : list MemUser) :
  users (globals w) = Some us ->
  found_user req us = None ->
  Earlier.loginUser req w =
    (Ok (Res.mk 404 (Res.Data (error_obj "User not found."))), w) /\
  Later.loginUser req w = (Ok (Res.mk 404 (Res.Text "User not found")), w).
Proof.
  login_unfold. intros -> ->. split; reflexivity.
Qed.

(** Known email, wrong password: 401 from both definitions. *)
Lemma loginUser_bad_password (req : Req.t) (w : World) (us : list MemUser)
    (user : MemUser) (p : string) :
  users (globals w) = Some us ->
  found_user req us = Some user ->
  Body.password (Req.body req) = Some p ->
  compareSync p (mu_password user) = false ->
  Earlier.loginUser req w =
    (Ok (Res.mk 401 (Res.Data (error_obj "Invalid password."))), w) /\
  Later.loginUser req w = (Ok (Res.mk 401 (Res.Text "Invalid password")), w).
Proof.
  login_unfold. intros -> -> -> ->. split; reflexivity.
Qed.

(** Known email, right password, a secret to sign with: 200 and a token. *)
Lemma loginUser_success (req : Req.t) (w : World) (us : list MemUser)
    (user : MemUser) (p secret : string) :
  users (globals w) = Some us ->
  found_user req us = Some user ->
  Body.password (Req.body req) = Some p ->
  compareSync p (mu_password user) = true ->
  SECRET (globals w) = Some secret ->
  secret <> EmptyString ->
  let tok := mkToken [("id"%string, JNum (mu_id user));
                      ("verified"%string, JBool (mu_verified user))]
                     (now w) (now w + 86400) secret in
  Earlier.loginUser req w = (Ok (Res.mk 200 (Res.Session true tok)), w) /\
  Later.loginUser req w = (Ok (Res.mk 200 (Res.Session true tok)), w).
Proof.
  login_unfold. intros Hu Hf Hp Hc Hk Hs. simpl.
  rewrite Hu, Hf, Hp. simpl. rewrite Hc. simpl. rewrite Hk.
  destruct secret; [congruence|]. split; reflexivity.
Qed.

(** Every answer with status 200 comes from that last case. *)
Lemma loginUser_200_inv (req : Req.t) (w w' : World) (r : Res.t) :
  Earlier.loginUser req w = (Ok r, w') \/ Later.loginUser req w = (Ok r, w') ->
  Res.status r = 200%nat ->
  exists us user p secret tok,
    users (globals w) = Some us /\
    found_user req us = Some user /\
    Body.password (Req.body req) = Some p /\
    compareSync p (mu_password user) = true /\
    SECRET (globals w) = Some secret /\
    secret <> EmptyString /\
    r = Res.mk 200 (Res.Session true tok) /\
    issued_for user secret (now w) tok /\
    w' = w.
Proof.
  login_unfold. intros H Hs.
  destruct (users (globals w)) as [us|] eqn:Eus;
    [|destruct H as [H|H]; discriminate].
  destruct (find _ us) as [user|] eqn:Ef;
    [|destruct H as [H|H]; inversion H; subst; discriminate].
  destruct (Body.password (Req.body req)) as [p|] eqn:Ep;
    [|destruct H as [H|H]; discriminate].
  destruct (compareSync p (mu_password user)) eqn:Ec; simpl in H;
    [|destruct H as [H|H]; inversion H; subst; discriminate].
  destruct (SECRET (globals w)) as [[|c secret]|] eqn:Ek;
    try (destruct H as [H|H]; discriminate).
  assert (H' : r = Res.mk 200 (Res.Session true
                 (mkToken [("id"%string, JNum (mu_id user));
                           ("verified"%string, JBool (mu_verified user))]
                          (now w) (now w + 86400) (String c secret)))
               /\ w' = w).
  { destruct H as [H|H]; inversion H; split; reflexivity. }
  destruct H' as [-> ->].
  exists us, user, p, (String c secret).
  eexists. repeat split; try reflexivity; try assumption; discriminate.
Qed.

(** [loginUser] never looks at the database. *)
Lemma loginUser_ignores_db (req : Req.t) (w : World) (d : Db) :
  fst (Earlier.loginUser req (with_db d w)) = fst (Earlier.loginUser req w) /\
  fst (Later.loginUser req (with_db d w)) = fst (Later.loginUser req w).
Proof.
  login_unfold. simpl.
  destruct (users (globals w)) as [us|]; [|split; reflexivity].
  destruct (find _ us) as [user|]; [|split; reflexivity].
  destruct (Body.password (Req.body req)) as [p|]; [|split; reflexivity].
  destruct (compareSync p (mu_password user)); simpl; [|split; reflexivity].
  destruct (SECRET (globals w)) as [[|c secret]|]; split; reflexivity.
Qed.
End Login.

(** C3, as stated, fails: with no user at all for the email, neither in the
    [users] collection nor in the table, both definitions of [loginUser]
    answer 404 and not 401. *)
Lemma loginUser_unknown_email_answers_404 :
  let w := world_of empty_db (mkGlobals (Some "s3cret"%string) (Some [])) [] in
  let req := req_of 0 0 0 (login_body "a@x.com" "pw1") in
  found_user req [] = None /\
  fst (select_users_by_email (Some "a@x.com"%string) (db w)) = Ok [] /\
  status_of (@Later.loginUser toy_bcrypt req w) = Some 404%nat /\
  status_of (@Earlier.loginUser toy_bcrypt req w) = Some 404%nat /\
  status_of (@Later.loginUser toy_bcrypt req w) <> Some 401%nat.
Proof.
  repeat split; try reflexivity. discriminate.
Qed.

(** C3, amended.  When [users] holds no element with the email of the
    request, [loginUser] answers 404; when it holds one and the password of
    the request does not match the hash kept in that element, [loginUser]
    answers 401.  Both definitions agree on the status. *)
Theorem loginUser_failure_status {bc : Bcrypt}
    (req : Req.t) (w : World) (us : list MemUser) :
  users (globals w) = Some us ->
  (found_user req us = None ->
   status_of (Later.loginUser req w) = Some 404%nat /\
   status_of (Earlier.loginUser req w) = Some 404%nat) /\
  (forall user p,
     found_user req us = Some user ->
     Body.password (Req.body req) = Some p ->
     compareSync p (mu_password user) = false ->
     status_of (Later.loginUser req w) = Some 401%nat /\
     status_of (Earlier.loginUser req w) = Some 401%nat).
Proof.
  intros Hu. split.
  - intros Hf. destruct (loginUser_unknown req w us Hu Hf) as [E L].
    unfold status_of. rewrite E, L. split; reflexivity.
  - intros user p Hf Hp Hc.
    destruct (loginUser_bad_password req w us user p Hu Hf Hp Hc) as [E L].
    unfold status_of. rewrite E, L. split; reflexivity.
Qed.

Lemma loginUser_failure_status_witness :
  (found_user (req_of 0 0 0 (login_body "b@x.com" "pw1")) [alice] = None ->
   status_of (@Later.loginUser toy_bcrypt
                (req_of 0 0 0 (login_body "b@x.com" "pw1")) login_world)
     = Some 404%nat /\
   status_of (@Earlier.loginUser toy_bcrypt
                (req_of 0 0 0 (login_body "b@x.com" "pw1")) login_world)
     = Some 404%nat) /\
  status_of (@Later.loginUser toy_bcrypt
               (req_of 0 0 0 (login_body "a@x.com" "wrong")) login_world)
    = Some 401%nat.
Proof.
  split.
  - apply (@loginUser_failure_status toy_bcrypt
             (req_of 0 0 0 (login_body "b@x.com" "pw1")) login_world [alice]).
    reflexivity.
  - apply (proj2 (@loginUser_failure_status toy_bcrypt
                    (req_of 0 0 0 (login_body "a@x.com" "wrong"))
                    login_world [alice] eq_refl)
                 alice "wrong"%string); reflexivity.
Defined.

(** C4.  The record [loginUser] checks and signs for is the element of the
    module-level [users], never the row of the table: the answer does not
    depend on the database at all; with the row of a@x.com stored (id 1,
    not verified) and a different element in [users] (id 99, verified,
    another password), the login with that other password is granted a token
    for id 99, verified; with [users] empty the stored password is answered
    404; and with [users] unbound, as in the sources, the handler raises
    [ReferenceError]. *)
Theorem loginUser_reads_users_not_the_store :
  (forall (bc : Bcrypt) req w d,
     fst (Later.loginUser req (with_db d w)) = fst (Later.loginUser req w) /\
     fst (Earlier.loginUser req (with_db d w)) = fst (Earlier.loginUser req w)) /\
  let stored := mkDb [Users.mk 1 "a@x.com" (toy_hash "pw1") false []] 1
                     [] 0 [] 0 in
  let ghost := mkMemUser 99 "a@x.com" (toy_hash "other") true in
  let g us := mkGlobals (Some "s3cret"%string) us in
  fst (@Later.loginUser toy_bcrypt (req_of 0 0 0 (login_body "a@x.com" "other"))
         (world_of stored (g (Some [ghost])) [])) =
    Ok (Res.mk 200 (Res.Session true
          (mkToken [("id"%string, JNum 99); ("verified"%string, JBool true)]
                   1700000000 1700086400 "s3cret"))) /\
  fst (@Later.loginUser toy_bcrypt (req_of 0 0 0 (login_body "a@x.com" "pw1"))
         (world_of stored (g (Some [])) [])) =
    Ok (Res.mk 404 (Res.Text "User not found")) /\
  fst (@Later.loginUser toy_bcrypt (req_of 0 0 0 (login_body "a@x.com" "pw1"))
         (world_of stored (g None) [])) =
    Throw (ReferenceError "users").
Proof.
  split.
  - intros bc req w d.
    destruct (loginUser_ignores_db req w d) as [E L]. split; assumption.
  - repeat split; reflexivity.
Qed.

(** C9.  A login is answered 200 only when a user was found and the
    password matched, and then the body is [{ auth: true, token }] where the
    token carries exactly the [id] and [verified] of that user, is signed
    with [SECRET], is issued now and expires 86400 seconds later; and
    whenever a user is found, the password matches and [SECRET] is set, the
    login is answered so. *)
Theorem loginUser_token_contents {bc : Bcrypt} (req : Req.t) (w : World) :
  (forall r w',
     Later.loginUser req w = (Ok r, w') \/ Earlier.loginUser req w = (Ok r, w') ->
     Res.status r = 200%nat ->
     exists us user secret tok,
       users (globals w) = Some us /\
       found_user req us = Some user /\
       SECRET (globals w) = Some secret /\
       Res.body r = Res.Session true tok /\
       issued_for user secret (now w) tok) /\
  (forall us user p secret,
     users (globals w) = Some us ->
     found_user req us = Some user ->
     Body.password (Req.body req) = Some p ->
     compareSync p (mu_password user) = true ->
     SECRET (globals w) = Some secret ->
     secret <> EmptyString ->
     exists tok,
       Later.loginUser req w = (Ok (Res.mk 200 (Res.Session true tok)), w) /\
       Earlier.loginUser req w = (Ok (Res.mk 200 (Res.Session true tok)), w) /\
       issued_for user secret (now w) tok).
Proof.
  split.
  - intros r w' H Hs.
    destruct (loginUser_200_inv req w w' r) as
      (us & user & p & secret & tok & Hu & Hf & _ & _ & Hk & _ & -> & Hi & _);
      [tauto|exact Hs|].
    exists us, user, secret, tok. repeat split; try assumption; apply Hi.
  - intros us user p secret Hu Hf Hp Hc Hk Hne.
    destruct (loginUser_success req w us user p secret Hu Hf Hp Hc Hk Hne)
      as [E L].
    eexists. split; [exact L|]. split; [exact E|].
    repeat split.
Qed.

Lemma loginUser_token_contents_witness :
  exists tok,
    @Later.loginUser toy_bcrypt (req_of 0 0 0 (login_body "a@x.com" "pw1"))
       login_world = (Ok (Res.mk 200 (Res.Session true tok)), login_world) /\
    @Earlier.loginUser toy_bcrypt (req_of 0 0 0 (login_body "a@x.com" "pw1"))
       login_world = (Ok (Res.mk 200 (Res.Session true tok)), login_world) /\
    issued_for alice "s3cret" 1700000000 tok.
Proof.
  apply (proj2 (@loginUser_token_contents toy_bcrypt
                  (req_of 0 0 0 (login_body "a@x.com" "pw1")) login_world)
               [alice] alice "pw1"%string "s3cret"%string);
    try reflexivity. discriminate.
Defined.

(** ** Registration with an email already stored: C7 *)

Lemma filter_nonempty {A} (p : A -> bool) (l : list A) (a : A) :
  In a l -> p a = true -> (0 <? List.length (filter p l))%nat = true.
Proof.
  intros Hin Hp.
  assert (H : In a (filter p l)) by (apply filter_In; split; assumption).
  destruct (filter p l); [destruct H|reflexivity].
Qed.

Lemma filter_none {A} (p : A -> bool) (l : list A) :
  existsb p l = false -> filter p l = [].
Proof.
  induction l as [|a l IH]; simpl; [reflexivity|].
  destruct (p a); simpl; [discriminate|exact IH].
Qed.

Ltac break_if :=
  repeat match goal with
         | |- context [if ?c then _ else _] => destruct c; simpl
         end.

Section Handlers_run.
Context {bc : Bcrypt}.

(** C7.  When the email of a registration request is the email of a stored
    user, both definitions of [createUser] leave the database as it was,
    whatever the store does; and when the store completes the lookup they
    answer 400 with the conflict message. *)
Theorem createUser_duplicate_email
    (req : Req.t) (w : World) (e : string) (r0 : Users.row) :
  Body.email (Req.body req) = Some e ->
  In r0 (users_tbl (db w)) ->
  Users.email r0 = e ->
  (db (snd (Later.createUser req w)) = db w /\
   db (snd (Earlier.createUser req w)) = db w) /\
  (quiet 1 w = true ->
   Later.createUser req w =
     (Ok (Res.mk 400 (Res.Data (message_obj "Email already exists"))),
      tick w) /\
   Earlier.createUser req w =
     (Ok (Res.mk 400 (Res.Data (error_obj "Email already exists."))),
      tick w)).
Proof.
  intros He Hin Hr0.
  assert (Hrows : (0 <? List.length
                     (filter (fun r => opt_eqb (Some e) (Users.email r))
                             (users_tbl (db w))))%nat = true).
  { apply (filter_nonempty _ _ r0 Hin). simpl. rewrite Hr0.
    apply String.eqb_refl. }
  unfold Later.createUser, Earlier.createUser, try_catch, bind, pool_query,
    round_trip, select_users_by_email, json, ret, tick, quiet.
  rewrite He. destruct w as [d g f l s t]. simpl in *.
  destruct f as [|[|] f]; simpl; rewrite ?Hrows; simpl;
    (split; [split; reflexivity|]); intros H; try discriminate;
    split; reflexivity.
Qed.

(** ** Deleting a course: C8 *)

Lemma deleteCourse_users_tbl (req : Req.t) (w : World) :
  users_tbl (db (snd (Later.deleteCourse req w))) = users_tbl (db w) /\
  users_tbl (db (snd (Earlier.deleteCourse req w))) = users_tbl (db w).
Proof.
  unfold Later.deleteCourse, Earlier.deleteCourse, try_catch, bind,
    pool_query, round_trip, delete_course, json, send_empty, ret.
  destruct w as [d g f l s t]. simpl.
  destruct f as [|[|] f]; simpl; break_if; split; reflexivity.
Qed.
End Handlers_run.

Lemma createUser_duplicate_email_witness :
  let w := world_of one_user_db no_globals [] in
  let req := req_of 0 0 0 (login_body "a@x.com" "pw2") in
  (db (snd (@Later.createUser toy_bcrypt req w)) = one_user_db /\
   db (snd (@Earlier.createUser toy_bcrypt req w)) = one_user_db) /\
  @Later.createUser toy_bcrypt req w =
    (Ok (Res.mk 400 (Res.Data (message_obj "Email already exists"))), tick w) /\
  @Earlier.createUser toy_bcrypt req w =
    (Ok (Res.mk 400 (Res.Data (error_obj "Email already exists."))), tick w).
Proof.
  intros w req.
  destruct (@createUser_duplicate_email toy_bcrypt req w "a@x.com"
              (Users.mk 1 "a@x.com" "$2a$pw1" true []))
    as [H1 H2]; [reflexivity|left; reflexivity|reflexivity|].
  split; [exact H1|exact (H2 eq_refl)].
Defined.

(** C8.  Whatever the request and the state of the store, neither
    definition of [deleteCourse] changes the [users] table: every user has
    the same tracked list after the delete as before, so a user who tracked
    the deleted identifier still has it in the list. *)
Theorem deleteCourse_keeps_tracked_lists (req : Req.t) (w : World) :
  let id := Params.id (Req.params req) in
  let w1 := snd (Later.deleteCourse req w) in
  let w2 := snd (Earlier.deleteCourse req w) in
  users_tbl (db w1) = users_tbl (db w) /\
  users_tbl (db w2) = users_tbl (db w) /\
  (forall u, tracked_of u (db w1) = tracked_of u (db w) /\
             tracked_of u (db w2) = tracked_of u (db w)) /\
  (forall u l, tracked_of u (db w) = Some l -> In id l ->
               exists l1 l2, tracked_of u (db w1) = Some l1 /\ In id l1 /\
                             tracked_of u (db w2) = Some l2 /\ In id l2).
Proof.
  intros id w1 w2.
  destruct (deleteCourse_users_tbl req w) as [L E].
  fold w1 in L. fold w2 in E.
  assert (T : forall u, tracked_of u (db w1) = tracked_of u (db w) /\
                        tracked_of u (db w2) = tracked_of u (db w)).
  { intros u. unfold tracked_of, user_by_id. rewrite L, E. split; reflexivity. }
  repeat split; try assumption; try apply T.
  intros u l Hl Hin. exists l, l.
  destruct (T u) as [T1 T2]. rewrite T1, T2. repeat split; assumption.
Qed.

Lemma deleteCourse_keeps_tracked_lists_witness :
  let w := world_of catalog_db no_globals [] in
  let req := req_of 5 0 0 no_body in
  fst (Later.deleteCourse req w) = Ok (Res.mk 204 Res.Empty) /\
  courses_tbl (db (snd (Later.deleteCourse req w))) =
    [Courses.mk 6 "Algebra" None None] /\
  exists l1 l2,
    tracked_of 1 (db (snd (Later.deleteCourse req w))) = Some l1 /\ In 5 l1 /\
    tracked_of 1 (db (snd (Earlier.deleteCourse req w))) = Some l2 /\ In 5 l2.
Proof.
  intros w req. split; [reflexivity|]. split; [reflexivity|].
  apply (proj2 (proj2 (proj2 (deleteCourse_keeps_tracked_lists req w)))
               1 [5; 6]).
  - reflexivity.
  - left. reflexivity.
Defined.

(** ** Missing targets and failing store calls: C6 and C10 *)

(** C6.  On a store without course 7 and without assignment 7, the handlers
    that serve the routes do not signal NotFound: [deleteCourse] and
    [deleteAssignment] answer 204, [updateCourse] and [updateAssignment]
    answer 200 with no row; the first definitions of the same four handlers
    answer 404 on the same input. *)
Theorem missing_target_is_not_signalled {bc : Bcrypt} :
  let w := world_of empty_db no_globals [] in
  let rc := req_of 7 0 0 (course_body "Logic") in
  let ra := req_of 7 0 0 (assignment_body "Essay") in
  fst (Effective.handler DELETE_courses rc w) = Ok (Res.mk 204 Res.Empty) /\
  fst (Effective.handler DELETE_assignments ra w) = Ok (Res.mk 204 Res.Empty) /\
  fst (Effective.handler PUT_courses rc w) = Ok (Res.mk 200 Res.Undefined) /\
  fst (Effective.handler PUT_assignments ra w) = Ok (Res.mk 200 Res.Undefined) /\
  status_of (Earlier.deleteCourse rc w) = Some 404%nat /\
  status_of (Earlier.deleteAssignment ra w) = Some 404%nat /\
  status_of (Earlier.updateCourse rc w) = Some 404%nat /\
  status_of (Earlier.updateAssignment ra w) = Some 404%nat.
Proof.
  repeat split; reflexivity.
Qed.

Lemma status_differs (x y : Result Res.t * World) :
  status_of x <> status_of y -> x <> y.
Proof. intros H E. apply H. rewrite E. reflexivity. Qed.

Ltac catalog_unfold :=
  unfold Earlier.updateCourse, Later.updateCourse,
    Earlier.updateAssignment, Later.updateAssignment,
    Earlier.deleteCourse, Later.deleteCourse,
    Earlier.deleteAssignment, Later.deleteAssignment,
    try_catch, bind, pool_query, round_trip,
    update_course, update_assignment, delete_course, delete_assignment,
    json, json_row0, send_empty, ret, status_of, quiet in *.

Section Catalog.
Variable req : Req.t.
Variable w : World.
Let id := Params.id (Req.params req).

Lemma missing_course :
  quiet 1 w = true ->
  existsb (fun r => Courses.id r =? id) (courses_tbl (db w)) = false ->
  status_of (Earlier.updateCourse req w) = Some 404%nat /\
  fst (Later.updateCourse req w) = Ok (Res.mk 200 Res.Undefined) /\
  status_of (Earlier.deleteCourse req w) = Some 404%nat /\
  fst (Later.deleteCourse req w) = Ok (Res.mk 204 Res.Empty).
Proof.
  subst id. intros Hq Hm. pose proof (filter_none _ _ Hm) as Hf.
  catalog_unfold. destruct w as [d g f l s t]. simpl in *.
  destruct f as [|[|] f]; simpl in *; try discriminate;
    rewrite Hm; simpl; rewrite ?Hf; repeat split; reflexivity.
Qed.

Lemma missing_assignment :
  quiet 1 w = true ->
  existsb (fun r => Assignments.id r =? id) (assignments_tbl (db w)) = false ->
  status_of (Earlier.updateAssignment req w) = Some 404%nat /\
  fst (Later.updateAssignment req w) = Ok (Res.mk 200 Res.Undefined) /\
  status_of (Earlier.deleteAssignment req w) = Some 404%nat /\
  fst (Later.deleteAssignment req w) = Ok (Res.mk 204 Res.Empty).
Proof.
  subst id. intros Hq Hm. pose proof (filter_none _ _ Hm) as Hf.
  catalog_unfold. destruct w as [d g f l s t]. simpl in *.
  destruct f as [|[|] f]; simpl in *; try discriminate;
    rewrite ?Hm; simpl; rewrite ?Hf; repeat split; reflexivity.
Qed.

Lemma failing_store (fs : list bool) :
  faults w = true :: fs ->
  (status_of (Earlier.updateCourse req w) = Some 500%nat /\
   status_of (Earlier.updateAssignment req w) = Some 500%nat /\
   status_of (Earlier.deleteCourse req w) = Some 500%nat /\
   status_of (Earlier.deleteAssignment req w) = Some 500%nat) /\
  (fst (Later.updateCourse req w) = Throw (PgError connection_failure) /\
   fst (Later.updateAssignment req w) = Throw (PgError connection_failure) /\
   fst (Later.deleteCourse req w) = Throw (PgError connection_failure) /\
   fst (Later.deleteAssignment req w) = Throw (PgError connection_failure)).
Proof.
  intros Hf. catalog_unfold. rewrite Hf. simpl. repeat split; reflexivity.
Qed.
End Catalog.

Lemma answers_differently_intro (h1 h2 : Req.t -> M Res.t) (req : Req.t)
    (w : World) (s1 : nat) (r2 : Result Res.t) :
  status_of (h1 req w) = Some s1 ->
  fst (h2 req w) = r2 ->
  match r2 with
  | Ok r => Res.status r <> s1
  | Throw _ => True
  end ->
  answers_differently h1 h2 req w s1 r2.
Proof.
  intros H1 H2 Hd. repeat split; try assumption.
  apply status_differs. unfold status_of in *. rewrite H2.
  destruct (fst (h1 req w)); [|discriminate].
  injection H1 as H1. destruct r2; [|discriminate].
  intros E. injection E as E. apply Hd. congruence.
Qed.

(** C10.  The two definitions of [updateCourse], [updateAssignment],
    [deleteCourse] and [deleteAssignment] are not equivalent.  When the
    target is missing and the store completes the call, the first definition
    answers 404 while the second answers 200 without a row (updates) or 204
    (deletes).  When the store call fails, the first definition answers 500
    while the second raises the error of the store and answers nothing. *)
Theorem later_catalog_handlers_drop_404_and_500 (req : Req.t) (w : World) :
  let id := Params.id (Req.params req) in
  (quiet 1 w = true ->
   existsb (fun r => Courses.id r =? id) (courses_tbl (db w)) = false ->
   answers_differently Earlier.updateCourse Later.updateCourse req w
     404 (Ok (Res.mk 200 Res.Undefined)) /\
   answers_differently Earlier.deleteCourse Later.deleteCourse req w
     404 (Ok (Res.mk 204 Res.Empty))) /\
  (quiet 1 w = true ->
   existsb (fun r => Assignments.id r =? id) (assignments_tbl (db w)) = false ->
   answers_differently Earlier.updateAssignment Later.updateAssignment req w
     404 (Ok (Res.mk 200 Res.Undefined)) /\
   answers_differently Earlier.deleteAssignment Later.deleteAssignment req w
     404 (Ok (Res.mk 204 Res.Empty))) /\
  (forall fs, faults w = true :: fs ->
   answers_differently Earlier.updateCourse Later.updateCourse req w
     500 (Throw (PgError connection_failure)) /\
   answers_differently Earlier.updateAssignment Later.updateAssignment req w
     500 (Throw (PgError connection_failure)) /\
   answers_differently Earlier.deleteCourse Later.deleteCourse req w
     500 (Throw (PgError connection_failure)) /\
   answers_differently Earlier.deleteAssignment Later.deleteAssignment req w
     500 (Throw (PgError connection_failure))).
Proof.
  intros id. split; [|split].
  - intros Hq Hm.
    destruct (missing_course req w Hq Hm) as (A & B & C & D).
    split; apply answers_differently_intro; try assumption; simpl; lia.
  - intros Hq Hm.
    destruct (missing_assignment req w Hq Hm) as (A & B & C & D).
    split; apply answers_differently_intro; try assumption; simpl; lia.
  - intros fs Hf.
    destruct (failing_store req w fs Hf) as ((A & B & C & D) & (E & F & G & H)).
    split; [|split; [|split]];
      apply answers_differently_intro; try assumption; exact I.
Qed.

Lemma later_catalog_handlers_drop_404_and_500_witness :
  (answers_differently Earlier.updateCourse Later.updateCourse
     (req_of 7 0 0 (course_body "Logic")) (world_of catalog_db no_globals [])
     404 (Ok (Res.mk 200 Res.Undefined)) /\
   answers_differently Earlier.deleteCourse Later.deleteCourse
     (req_of 7 0 0 (course_body "Logic")) (world_of catalog_db no_globals [])
     404 (Ok (Res.mk 204 Res.Empty))) /\
  (answers_differently Earlier.updateAssignment Later.updateAssignment
     (req_of 7 0 0 (assignment_body "Essay")) (world_of catalog_db no_globals [])
     404 (Ok (Res.mk 200 Res.Undefined)) /\
   answers_differently Earlier.deleteAssignment Later.deleteAssignment
     (req_of 7 0 0 (assignment_body "Essay")) (world_of catalog_db no_globals [])
     404 (Ok (Res.mk 204 Res.Empty))) /\
  answers_differently Earlier.deleteCourse Later.deleteCourse
     (req_of 5 0 0 no_body) (world_of catalog_db no_globals [true])
     500 (Throw (PgError connection_failure)).
Proof.
  split; [|split].
  - apply (proj1 (later_catalog_handlers_drop_404_and_500
                    (req_of 7 0 0 (course_body "Logic"))
                    (world_of catalog_db no_globals []))); reflexivity.
  - apply (proj1 (proj2 (later_catalog_handlers_drop_404_and_500
                    (req_of 7 0 0 (assignment_body "Essay"))
                    (world_of catalog_db no_globals [])))); reflexivity.
  - apply (proj2 (proj2 (later_catalog_handlers_drop_404_and_500
                    (req_of 5 0 0 no_body)
                    (world_of catalog_db no_globals [true]))) [] eq_refl).
Defined.

(** ** Where the password hash goes: C5 *)

Section Leaks.
Variable P : Res.t -> Prop.

Lemma leaks_bind {A} (m : M A) (k : A -> M Res.t) :
  (forall a, leaks_only_if P (k a)) -> leaks_only_if P (bind m k).
Proof.
  intros Hk w r w'. unfold bind. destruct (m w) as [[a|e] w1].
  - apply Hk.
  - discriminate.
Qed.

Lemma leaks_try_catch (m : M Res.t) (h : Exn -> M Res.t) :
  leaks_only_if P m -> (forall e, leaks_only_if P (h e)) ->
  leaks_only_if P (try_catch m h).
Proof.
  intros Hm Hh w r w'. unfold try_catch.
  destruct (m w) as [[a|e] w1] eqn:E.
  - intros H. injection H as -> ->. apply (Hm w _ _ E).
  - apply Hh.
Qed.

Lemma leaks_if (c : bool) (m1 m2 : M Res.t) :
  leaks_only_if P m1 -> leaks_only_if P m2 ->
  leaks_only_if P (if c then m1 else m2).
Proof. destruct c; auto. Qed.

Lemma leaks_ret_clean (r : Res.t) :
  leaks r = false -> leaks_only_if P (ret r).
Proof.
  intros Hc w r' w' H Hl. injection H as <- _. congruence.
Qed.

Lemma leaks_json_clean (s : nat) (j : Json) :
  has_key "password_hash" j = false -> leaks_only_if P (json s j).
Proof. intros H. apply leaks_ret_clean. exact H. Qed.

Lemma leaks_json_row0_clean {A} (s : nat) (f : A -> Json) (rows : list A) :
  (forall a, has_key "password_hash" (f a) = false) ->
  leaks_only_if P (json_row0 s f rows).
Proof.
  intros H. destruct rows as [|a rows]; apply leaks_ret_clean;
    [reflexivity|apply H].
Qed.

Lemma leaks_json_rows_clean {A} (s : nat) (f : A -> Json) (rows : list A) :
  (forall a, has_key "password_hash" (f a) = false) ->
  leaks_only_if P (json_rows s f rows).
Proof.
  intros H. apply leaks_json_clean. simpl.
  induction rows as [|a rows IH]; simpl; [reflexivity|].
  rewrite H. exact IH.
Qed.

Lemma leaks_json_row0_status {A} (s : nat) (f : A -> Json) (rows : list A) :
  (forall c, P (Res.mk s c)) -> leaks_only_if P (json_row0 s f rows).
Proof.
  intros H w r w'. destruct rows; intros E _; injection E as <- _; apply H.
Qed.

Lemma leaks_json_rows_status {A} (s : nat) (f : A -> Json) (rows : list A) :
  (forall c, P (Res.mk s c)) -> leaks_only_if P (json_rows s f rows).
Proof.
  intros H w r w' E _. injection E as <- _. apply H.
Qed.
End Leaks.

Lemma course_json_clean (r : Courses.row) :
  has_key "password_hash" (course_json r) = false.
Proof.
  destruct r as [i n [ds|] [ins|]]; reflexivity.
Qed.

Lemma assignment_json_clean (r : Assignments.row) :
  has_key "password_hash" (assignment_json r) = false.
Proof.
  destruct r as [i t [ds|] [due|] [c|] [fp|]]; reflexivity.
Qed.

Lemma numbers_clean (l : list Z) :
  has_key "password_hash" (JArr (map JNum l)) = false.
Proof.
  simpl. induction l as [|z l IH]; simpl; [reflexivity|exact IH].
Qed.

Ltac leaks_step :=
  cbv beta zeta;
  first
    [ apply leaks_try_catch; [|intros ?]
    | apply leaks_bind; intros ?
    | apply leaks_if
    | apply leaks_json_clean; solve [reflexivity | apply numbers_clean]
    | apply leaks_json_row0_clean;
        solve [apply course_json_clean | apply assignment_json_clean]
    | apply leaks_json_rows_clean;
        solve [apply course_json_clean | apply assignment_json_clean]
    | apply leaks_json_row0_status; solve [intros ?; reflexivity]
    | apply leaks_json_rows_status; solve [intros ?; reflexivity]
    | apply leaks_ret_clean; reflexivity ].

Section Leaks_by_route.
Context {bc : Bcrypt}.

Lemma loginUser_clean (P : Res.t -> Prop) (req : Req.t) :
  leaks_only_if P (Later.loginUser req) /\
  leaks_only_if P (Earlier.loginUser req).
Proof.
  unfold Later.loginUser, Earlier.loginUser, send_text.
  split; (leaks_step; destruct (find _ _); repeat leaks_step).
Qed.

Lemma effective_leaks (route : Route) (req : Req.t) :
  leaks_only_if (may_leak route) (Effective.handler route req).
Proof.
  destruct route; unfold may_leak, Effective.handler;
    try apply loginUser_clean;
    unfold Later.uploadAssignment, Later.createUser, Later.verifyUser,
      Later.createCourse, Later.createAssignment, Later.trackCourse,
      Later.untrackCourse, Later.getAllUsers, Later.getVerifiedUsers,
      Later.getUnverifiedUsers, Later.getAllCourses, Later.getAllAssignments,
      Later.getTrackedCoursesForUser, Later.updateCourse,
      Later.updateAssignment, Later.deleteCourse, Later.deleteAssignment,
      send_empty;
    repeat leaks_step.
Qed.

Lemma earlier_leaks (route : Route) (req : Req.t) :
  leaks_only_if (may_leak route) (earlier_handler route req).
Proof.
  destruct route; unfold may_leak, earlier_handler;
    try apply loginUser_clean;
    unfold Earlier.uploadAssignment, Earlier.createUser, Earlier.verifyUser,
      Earlier.createCourse, Earlier.createAssignment, Earlier.trackCourse,
      Earlier.untrackCourse, Earlier.getAllUsers, Earlier.getVerifiedUsers,
      Earlier.getUnverifiedUsers, Earlier.getAllCourses,
      Earlier.getAllAssignments, Earlier.getTrackedCoursesForUser,
      Earlier.updateCourse, Earlier.updateAssignment, Earlier.deleteCourse,
      Earlier.deleteAssignment, send_empty;
    repeat leaks_step.
Qed.
End Leaks_by_route.

Lemma user_rows_leak (rows : list Users.row) :
  rows <> [] -> has_key "password_hash" (JArr (map user_json rows)) = true.
Proof.
  destruct rows as [|r rows]; [congruence|reflexivity].
Qed.

Section Leaks_of_user_rows.
Context {bc : Bcrypt}.

Lemma createUser_201_leaks (req : Req.t) (w w' : World) (r : Res.t) :
  Later.createUser req w = (Ok r, w') \/ Earlier.createUser req w = (Ok r, w') ->
  Res.status r = 201%nat ->
  leaks r = true.
Proof.
  unfold Later.createUser, Earlier.createUser, try_catch, bind, pool_query,
    round_trip, select_users_by_email, insert_user, bcrypt_hashSync,
    json, json_row0, ret.
  destruct w as [d g f l s t]. simpl.
  intros H Hs.
  destruct f as [|[|] [|[|] f]]; simpl in H;
    repeat match type of H with
           | context [if ?c then _ else _] => destruct c; simpl in H
           | context [match ?x with Some _ => _ | None => _ end] =>
               destruct x; simpl in H
           end;
    destruct H as [H|H]; try discriminate;
    injection H as <- _; try discriminate; reflexivity.
Qed.

Lemma createUser_201_row (req : Req.t) (w w' : World) (r : Res.t) :
  Later.createUser req w = (Ok r, w') \/ Earlier.createUser req w = (Ok r, w') ->
  Res.status r = 201%nat ->
  exists row,
    Res.body r = Res.Data (user_json row) /\ In row (users_tbl (db w')).
Proof.
  unfold Later.createUser, Earlier.createUser, try_catch, bind, pool_query,
    round_trip, select_users_by_email, insert_user, bcrypt_hashSync,
    json, json_row0, ret.
  destruct w as [d g f l s t]. simpl.
  intros H Hs.
  destruct f as [|[|] [|[|] f]]; simpl in H;
    repeat match type of H with
           | context [if ?c then _ else _] => destruct c; simpl in H
           | context [match ?x with Some _ => _ | None => _ end] =>
               destruct x; simpl in H
           end;
    destruct H as [H|H]; try discriminate;
    injection H as <- <-; try discriminate;
    eexists; (split; [reflexivity|]); simpl;
    apply in_or_app; right; left; reflexivity.
Qed.

Lemma listings_show_rows (route : Route) (req : Req.t) (w : World)
    (rows : list Users.row) :
  quiet 1 w = true ->
  listed_users route (db w) = Some rows ->
  fst (Effective.handler route req w) = Ok (Res.mk 200 (users_body rows)) /\
  fst (earlier_handler route req w) = Ok (Res.mk 200 (users_body rows)).
Proof.
  intros Hq Hrows.
  assert (V : forall v, filter (fun r => Bool.eqb (Users.verified r) v)
                          (users_tbl (db w)) =
                        filter (fun r => if v then Users.verified r
                                         else negb (Users.verified r))
                          (users_tbl (db w))).
  { intros v. apply filter_ext. intros r.
    destruct v, (Users.verified r); reflexivity. }
  destruct route; try discriminate; injection Hrows as <-;
    unfold Effective.handler, earlier_handler, Later.getAllUsers,
      Later.getVerifiedUsers, Later.getUnverifiedUsers, Earlier.getAllUsers,
      Earlier.getVerifiedUsers, Earlier.getUnverifiedUsers, try_catch, bind,
      pool_query;
    rewrite (round_trip_quiet _ w Hq); simpl; rewrite ?V;
    split; reflexivity.
Qed.
End Leaks_of_user_rows.

(** C5, as stated, fails: registering a@x.com on an empty store is answered
    201 with the whole inserted row, [password_hash] included, and the
    listing of users that follows shows the hash again. *)
Lemma createUser_answers_with_password_hash :
  let w := world_of empty_db no_globals [] in
  let req := req_of 0 0 0 (login_body "a@x.com" "pw1") in
  let row := Users.mk 1 "a@x.com" (toy_hash "pw1") false [] in
  fst (@Effective.handler toy_bcrypt POST_users_create req w) =
    Ok (Res.mk 201 (Res.Data (user_json row))) /\
  has_key "password_hash" (user_json row) = true /\
  fst (@Effective.handler toy_bcrypt GET_users req
         (snd (@Effective.handler toy_bcrypt POST_users_create req w))) =
    Ok (Res.mk 200 (Res.Data (JArr [user_json row]))).
Proof.
  repeat split; reflexivity.
Qed.

(** C5, amended.  A response body shows [password_hash] only when it is the
    201 body of the user creation or the 200 body of one of the three user
    listings.  Those bodies carry whole rows of [users], hash included:
    every 201 answer of the creation is the JSON of a row now stored, and
    on a store that completes the call each of the three listings answers
    200 with the JSON of every row it selects (all rows, the verified ones,
    the unverified ones), so the hash shows as soon as one row is selected.
    No other response of any route shows it.  Both definitions behave so. *)
Theorem password_hash_only_in_user_rows {bc : Bcrypt} :
  (forall route req w r w',
     Effective.handler route req w = (Ok r, w') \/
     earlier_handler route req w = (Ok r, w') ->
     leaks r = true ->
     (route = POST_users_create /\ Res.status r = 201%nat) \/
     ((route = GET_users \/ route = GET_users_verified \/
       route = GET_users_unverified) /\ Res.status r = 200%nat)) /\
  (forall req w r w',
     Effective.handler POST_users_create req w = (Ok r, w') \/
     earlier_handler POST_users_create req w = (Ok r, w') ->
     Res.status r = 201%nat ->
     exists row,
       Res.body r = Res.Data (user_json row) /\
       In row (users_tbl (db w')) /\
       leaks r = true) /\
  (forall route req w rows,
     quiet 1 w = true ->
     listed_users route (db w) = Some rows ->
     fst (Effective.handler route req w) = Ok (Res.mk 200 (users_body rows)) /\
     fst (earlier_handler route req w) = Ok (Res.mk 200 (users_body rows)) /\
     (rows <> [] -> leaks (Res.mk 200 (users_body rows)) = true)).
Proof.
  split; [|split].
  - intros route req w r w' H Hl.
    assert (M : may_leak route r).
    { destruct H as [H|H].
      - exact (effective_leaks route req w r w' H Hl).
      - exact (earlier_leaks route req w r w' H Hl). }
    destruct route; simpl in M; try contradiction; auto 6.
  - intros req w r w' H Hs.
    destruct (createUser_201_row req w w' r H Hs) as (row & Hb & Hin).
    exists row. split; [exact Hb|]. split; [exact Hin|].
    apply (createUser_201_leaks req w w' r H Hs).
  - intros route req w rows Hq Hrows.
    destruct (listings_show_rows route req w rows Hq Hrows) as [L E].
    split; [exact L|]. split; [exact E|].
    intros Hne. apply (user_rows_leak rows Hne).
Qed.

Lemma password_hash_only_in_user_rows_witness :
  let w := world_of empty_db no_globals [] in
  let req := req_of 0 0 0 (login_body "a@x.com" "pw1") in
  let r := Res.mk 201 (Res.Data (user_json
             (Users.mk 1 "a@x.com" (toy_hash "pw1") false []))) in
  let alice_row := Users.mk 1 "a@x.com" "$2a$pw1" true [5; 7; 5] in
  let bob_row := Users.mk 2 "b@x.com" "$2a$pw2" false [5] in
  (fst (@Effective.handler toy_bcrypt POST_users_create req w) = Ok r /\
   leaks r = true /\
   ((POST_users_create = POST_users_create /\ Res.status r = 201%nat) \/
    ((POST_users_create = GET_users \/ POST_users_create = GET_users_verified \/
      POST_users_create = GET_users_unverified) /\ Res.status r = 200%nat))) /\
  (fst (@Effective.handler toy_bcrypt GET_users_verified req
          (world_of two_users_db no_globals [])) =
     Ok (Res.mk 200 (users_body [alice_row])) /\
   leaks (Res.mk 200 (users_body [alice_row])) = true) /\
  (fst (@Effective.handler toy_bcrypt GET_users_unverified req
          (world_of two_users_db no_globals [])) =
     Ok (Res.mk 200 (users_body [bob_row])) /\
   leaks (Res.mk 200 (users_body [bob_row])) = true).
Proof.
  intros w req r alice_row bob_row. split; [|split].
  - split; [reflexivity|]. split; [reflexivity|].
    apply (proj1 (@password_hash_only_in_user_rows toy_bcrypt)
                 POST_users_create req w r
                 (snd (@Effective.handler toy_bcrypt POST_users_create req w)));
      [left|]; reflexivity.
  - destruct (proj2 (proj2 (@password_hash_only_in_user_rows toy_bcrypt))
                GET_users_verified req (world_of two_users_db no_globals [])
                [alice_row] eq_refl eq_refl) as (L & _ & K).
    split; [exact L|]. apply K. discriminate.
  - destruct (proj2 (proj2 (@password_hash_only_in_user_rows toy_bcrypt))
                GET_users_unverified req (world_of two_users_db no_globals [])
                [bob_row] eq_refl eq_refl) as (L & _ & K).
    split; [exact L|]. apply K. discriminate.
Defined.

(** * Further properties of the handlers and of the helpers *)

(** ** Keeping a property of the world through the monad *)

Section Keeps.
Variable I : World -> Prop.

Lemma keeps_ret {A} (a : A) : keeps I (ret a).
Proof. intros w H. exact H. Qed.

Lemma keeps_throw {A} (e : Exn) : keeps I (@throw A e).
Proof. intros w H. exact H. Qed.

Lemma keeps_bind {A B} (m : M A) (k : A -> M B) :
  keeps I m -> (forall a, keeps I (k a)) -> keeps I (bind m k).
Proof.
  intros Hm Hk w H. unfold bind. specialize (Hm w H).
  destruct (m w) as [[a|e] w1]; simpl in *; [apply Hk|]; exact Hm.
Qed.

Lemma keeps_try_catch {A} (m : M A) (h : Exn -> M A) :
  keeps I m -> (forall e, keeps I (h e)) -> keeps I (try_catch m h).
Proof.
  intros Hm Hh w H. unfold try_catch. specialize (Hm w H).
  destruct (m w) as [[a|e] w1]; simpl in *; [|apply Hh]; exact Hm.
Qed.

Lemma keeps_try_finally {A} (m : M A) (f : M unit) :
  keeps I m -> keeps I f -> keeps I (try_finally m f).
Proof.
  intros Hm Hf w H. unfold try_finally. specialize (Hm w H).
  destruct (m w) as [r w1]. simpl in Hm. specialize (Hf w1 Hm).
  destruct (f w1) as [[u|e] w2]; exact Hf.
Qed.

Lemma keeps_if {A} (c : bool) (m1 m2 : M A) :
  keeps I m1 -> keeps I m2 -> keeps I (if c then m1 else m2).
Proof. destruct c; auto. Qed.

Lemma keeps_json (s : nat) (j : Json) : keeps I (json s j).
Proof. apply keeps_ret. Qed.

Lemma keeps_json_row0 {A} (s : nat) (f : A -> Json) (rows : list A) :
  keeps I (json_row0 s f rows).
Proof. destruct rows; apply keeps_ret. Qed.

Lemma keeps_json_rows {A} (s : nat) (f : A -> Json) (rows : list A) :
  keeps I (json_rows s f rows).
Proof. apply keeps_ret. Qed.

Lemma keeps_read_users : keeps I read_users.
Proof.
  intros w H. unfold read_users. destruct (users (globals w)); exact H.
Qed.

Lemma keeps_read_SECRET : keeps I read_SECRET.
Proof. intros w H. exact H. Qed.

Lemma keeps_jwt_sign (p : list (string * Json)) (k : option string) (n : Z) :
  keeps I (jwt_sign p k n).
Proof.
  intros w H. unfold jwt_sign. destruct k as [[|c k]|]; exact H.
Qed.

Lemma keeps_bcrypt_compareSync {bc : Bcrypt} (p : option string) (h : string) :
  keeps I (bcrypt_compareSync p h).
Proof. intros w H. unfold bcrypt_compareSync. destruct p; exact H. Qed.
End Keeps.

Section Keeps_on_db.
Variable J : Db -> Prop.

Lemma keeps_round_trip {A} (s : Statement A) :
  stmt_keeps J s -> keeps (on_db J) (round_trip s).
Proof.
  intros Hs w H. unfold round_trip, on_db in *.
  destruct w as [d g f l sd t]. simpl in *.
  specialize (Hs d H).
  destruct f as [|[|] f]; simpl; try exact H;
    destruct (s d) as [r d1]; exact Hs.
Qed.

Lemma keeps_select {A} (s : Statement A) :
  (forall d, snd (s d) = d) -> keeps (on_db J) (round_trip s).
Proof.
  intros Hs. apply keeps_round_trip. intros d H. rewrite Hs. exact H.
Qed.

Lemma keeps_pool_connect : keeps (on_db J) pool_connect.
Proof.
  intros w H. unfold pool_connect, on_db in *.
  destruct w as [d g f l sd t]. destruct f as [|[|] f]; exact H.
Qed.

Lemma keeps_client_release : keeps (on_db J) client_release.
Proof. intros w H. exact H. Qed.

Lemma keeps_bcrypt_hashSync {bc : Bcrypt} (p : option string) (n : nat) :
  keeps (on_db J) (bcrypt_hashSync p n).
Proof. intros w H. unfold bcrypt_hashSync. destruct p; exact H. Qed.

Lemma keeps_addTrackedCourse (u c : Z) :
  stmt_keeps J (update_tracked_append c u) ->
  keeps (on_db J) (addTrackedCourse u c).
Proof.
  intros Hs. unfold addTrackedCourse, client_query.
  apply keeps_bind; [apply keeps_pool_connect|intros _].
  apply keeps_try_finally;
    [apply keeps_round_trip; exact Hs|apply keeps_client_release].
Qed.

Lemma keeps_removeTrackedCourse (u c : Z) :
  stmt_keeps J (update_tracked_remove c u) ->
  keeps (on_db J) (removeTrackedCourse u c).
Proof.
  intros Hs. unfold removeTrackedCourse, client_query.
  apply keeps_bind; [apply keeps_pool_connect|intros _].
  apply keeps_try_finally;
    [apply keeps_round_trip; exact Hs|apply keeps_client_release].
Qed.

Lemma keeps_getTrackedCourses (u : Z) :
  keeps (on_db J) (getTrackedCourses u).
Proof.
  unfold getTrackedCourses, client_query.
  apply keeps_bind; [apply keeps_pool_connect|intros _].
  apply keeps_try_finally; [|apply keeps_client_release].
  apply keeps_bind; [apply keeps_select; reflexivity|intros rows].
  destruct rows; [apply keeps_throw|apply keeps_ret].
Qed.
End Keeps_on_db.

Ltac keeps_step :=
  cbv beta zeta;
  first
    [ apply keeps_getTrackedCourses
    | apply keeps_addTrackedCourse; solve [auto]
    | apply keeps_removeTrackedCourse; solve [auto]
    | apply keeps_try_catch; [|intros ?]
    | apply keeps_bind; [|intros ?]
    | apply keeps_if
    | apply keeps_json
    | apply keeps_json_row0
    | apply keeps_json_rows
    | apply keeps_ret
    | apply keeps_read_users
    | apply keeps_read_SECRET
    | apply keeps_jwt_sign
    | apply keeps_bcrypt_compareSync
    | apply keeps_bcrypt_hashSync
    | apply keeps_select; reflexivity
    | apply keeps_round_trip; solve [auto]
    | match goal with
      | |- keeps _ (match ?x with Some _ => _ | None => _ end) => destruct x
      end ].

Ltac handlers_unfold :=
  unfold Effective.handler, earlier_handler,
    Later.uploadAssignment, Later.loginUser, Later.createUser, Later.verifyUser,
    Later.createCourse, Later.createAssignment, Later.trackCourse,
    Later.untrackCourse, Later.getAllUsers, Later.getVerifiedUsers,
    Later.getUnverifiedUsers, Later.getAllCourses, Later.getAllAssignments,
    Later.getTrackedCoursesForUser, Later.updateCourse,
    Later.updateAssignment, Later.deleteCourse, Later.deleteAssignment,
    Earlier.uploadAssignment, Earlier.loginUser, Earlier.createUser,
    Earlier.verifyUser, Earlier.createCourse, Earlier.createAssignment,
    Earlier.trackCourse, Earlier.untrackCourse, Earlier.getAllUsers,
    Earlier.getVerifiedUsers, Earlier.getUnverifiedUsers,
    Earlier.getAllCourses, Earlier.getAllAssignments,
    Earlier.getTrackedCoursesForUser, Earlier.updateCourse,
    Earlier.updateAssignment, Earlier.deleteCourse, Earlier.deleteAssignment,
    send_text, send_empty, pool_query.

Section Keeps_by_route.
Context {bc : Bcrypt}.
Variable J : Db -> Prop.

Lemma handlers_keep (route : Route) (req : Req.t) :
  route_statements_keep J route ->
  keeps (on_db J) (Effective.handler route req) /\
  keeps (on_db J) (earlier_handler route req).
Proof.
  intros H. destruct route; simpl in H; handlers_unfold;
    split; repeat keeps_step.
Qed.
End Keeps_by_route.

(** ** What the statements of a route keep *)

Section Statements_keep_no_file.

Lemma all_routes_keep_no_file_path route :
  route_statements_keep no_file_path route.
Proof.
  destruct route; simpl; intros; try exact I; intros d H;
    unfold insert_assignment, insert_user, update_user_verified, insert_course,
      update_tracked_append, update_tracked_remove, update_course,
      update_assignment, delete_course, delete_assignment;
    repeat match goal with
           | |- context [match ?x with _ => _ end] => destruct x
           end; try exact H; intros a Ha; simpl in Ha.
  all: try (apply in_app_or in Ha; destruct Ha as [Ha|[<-|[]]];
            [exact (H a Ha)|reflexivity]).
  all: try (apply filter_In in Ha; exact (H a (proj1 Ha))).
  all: apply in_map_iff in Ha; destruct Ha as (a0 & <- & Hin);
    destruct (Assignments.id a0 =? _); simpl; exact (H a0 Hin).
Qed.
End Statements_keep_no_file.

Lemma users_routes_keep_catalog route (P : list Courses.row * Z *
                                           list Assignments.row * Z) :
  users_route route = true ->
  route_statements_keep (fun d => catalog_part d = P) route.
Proof.
  destruct route; simpl; intros Hr; try discriminate; intros; try exact I;
    intros d H; unfold insert_user, update_user_verified,
      update_tracked_append, update_tracked_remove;
    repeat match goal with
           | |- context [match ?x with _ => _ end] => destruct x
           end; exact H.
Qed.

Lemma catalog_routes_keep_users route (P : list Users.row * Z) :
  users_route route = false ->
  route_statements_keep (fun d => users_part d = P) route.
Proof.
  destruct route; simpl; intros Hr; try discriminate; intros; try exact I;
    intros d H; unfold insert_assignment, insert_course, update_course,
      update_assignment, delete_course, delete_assignment;
    repeat match goal with
           | |- context [match ?x with _ => _ end] => destruct x
           end; exact H.
Qed.

Lemma reading_routes_keep (J : Db -> Prop) route :
  reads_only route = true -> route_statements_keep J route.
Proof.
  destruct route; simpl; intros Hr; try discriminate; exact I.
Qed.

(** ** Invariants of the database under every route *)

(** X3.  No handler ever attaches a file: when no assignment has a
    [file_path] before a request, none has one after it, the route
    [/api/assignments/:id/attach] included. *)
Theorem handlers_never_set_file_path {bc : Bcrypt} (route : Route)
    (req : Req.t) (w : World) :
  no_file_path (db w) ->
  no_file_path (db (snd (Effective.handler route req w))) /\
  no_file_path (db (snd (earlier_handler route req w))).
Proof.
  intros H.
  destruct (handlers_keep no_file_path route req
              (all_routes_keep_no_file_path route)) as [L E].
  split; [apply (L w H)|apply (E w H)].
Qed.

Lemma handlers_never_set_file_path_witness :
  no_file_path (db (snd (@Effective.handler toy_bcrypt POST_assignments_attach
                           (req_of 1 0 0 (assignment_body "Essay"))
                           (world_of catalog_db no_globals [])))) /\
  no_file_path (db (snd (@earlier_handler toy_bcrypt POST_assignments_attach
                           (req_of 1 0 0 (assignment_body "Essay"))
                           (world_of catalog_db no_globals [])))).
Proof.
  apply (@handlers_never_set_file_path toy_bcrypt POST_assignments_attach).
  intros a [].
Defined.

(** X4.  The login and the six [GET] routes never write: under both
    definitions the database after the request is the database before it,
    whatever the store does. *)
Theorem reading_routes_leave_the_database {bc : Bcrypt} (route : Route)
    (req : Req.t) (w : World) :
  reads_only route = true ->
  db (snd (Effective.handler route req w)) = db w /\
  db (snd (earlier_handler route req w)) = db w.
Proof.
  intros Hr.
  destruct (handlers_keep (fun d => d = db w) route req
              (reading_routes_keep _ route Hr)) as [L E].
  split; [apply (L w eq_refl)|apply (E w eq_refl)].
Qed.

Lemma reading_routes_leave_the_database_witness :
  db (snd (@Effective.handler toy_bcrypt GET_users_tracked_courses
             (req_of 0 1 0 no_body) (world_of catalog_db no_globals []))) =
    catalog_db /\
  db (snd (@earlier_handler toy_bcrypt GET_users_tracked_courses
             (req_of 0 1 0 no_body) (world_of catalog_db no_globals []))) =
    catalog_db.
Proof.
  apply (@reading_routes_leave_the_database toy_bcrypt
           GET_users_tracked_courses (req_of 0 1 0 no_body)
           (world_of catalog_db no_globals [])).
  reflexivity.
Defined.

(** X5.  The two halves of the database are written by their own routes
    only: a route under [/api/users] leaves the courses, the assignments and
    their sequences as they were, and every other route leaves the users and
    their sequence as they were. *)
Theorem routes_write_their_own_tables {bc : Bcrypt} (route : Route)
    (req : Req.t) (w : World) :
  (users_route route = true ->
   catalog_part (db (snd (Effective.handler route req w))) = catalog_part (db w) /\
   catalog_part (db (snd (earlier_handler route req w))) = catalog_part (db w)) /\
  (users_route route = false ->
   users_part (db (snd (Effective.handler route req w))) = users_part (db w) /\
   users_part (db (snd (earlier_handler route req w))) = users_part (db w)).
Proof.
  split; intros Hr.
  - destruct (handlers_keep (fun d => catalog_part d = catalog_part (db w))
                route req (users_routes_keep_catalog route _ Hr)) as [L E].
    split; [apply (L w eq_refl)|apply (E w eq_refl)].
  - destruct (handlers_keep (fun d => users_part d = users_part (db w))
                route req (catalog_routes_keep_users route _ Hr)) as [L E].
    split; [apply (L w eq_refl)|apply (E w eq_refl)].
Qed.

Lemma routes_write_their_own_tables_witness :
  (catalog_part (db (snd (@Effective.handler toy_bcrypt POST_users_track_course
                            (req_of 0 1 6 no_body)
                            (world_of catalog_db no_globals [])))) =
     catalog_part catalog_db /\
   catalog_part (db (snd (@earlier_handler toy_bcrypt POST_users_track_course
                            (req_of 0 1 6 no_body)
                            (world_of catalog_db no_globals [])))) =
     catalog_part catalog_db) /\
  (users_part (db (snd (@Effective.handler toy_bcrypt PUT_courses
                          (req_of 5 0 0 (course_body "Sets"))
                          (world_of catalog_db no_globals [])))) =
     users_part catalog_db /\
   users_part (db (snd (@earlier_handler toy_bcrypt PUT_courses
                          (req_of 5 0 0 (course_body "Sets"))
                          (world_of catalog_db no_globals [])))) =
     users_part catalog_db).
Proof.
  split.
  - apply (proj1 (@routes_write_their_own_tables toy_bcrypt
                    POST_users_track_course (req_of 0 1 6 no_body)
                    (world_of catalog_db no_globals []))).
    reflexivity.
  - apply (proj2 (@routes_write_their_own_tables toy_bcrypt
                    PUT_courses (req_of 5 0 0 (course_body "Sets"))
                    (world_of catalog_db no_globals []))).
    reflexivity.
Defined.

(** ** The first definitions against the second *)

Ltac statements_unfold :=
  unfold select_users_by_email, select_users_by_id, select_users,
    select_users_verified, insert_user, update_user_verified,
    update_tracked_append, update_tracked_remove, select_tracked_courses,
    insert_course, insert_assignment, select_courses, select_assignments,
    update_course, update_assignment, delete_course, delete_assignment.

Ltac monad_unfold :=
  unfold addTrackedCourse, removeTrackedCourse, getTrackedCourses,
    client_query, client_release, pool_connect, round_trip, try_catch,
    try_finally, bind, json, json_row0, json_rows, ret, throw,
    bcrypt_hashSync, bcrypt_compareSync, jwt_sign, read_users, read_SECRET.

Ltac crunch :=
  repeat (simpl;
          match goal with
          | |- context [match ?f with [] => _ | _ :: _ => _ end] =>
              is_var f; destruct f as [|[|] f]
          | |- context [match ?l with [] => _ | _ :: _ => _ end] =>
              destruct l eqn:?
          | |- context [if ?c then _ else _] => destruct c eqn:?
          | |- context [match ?o with Some _ => _ | None => _ end] =>
              destruct o eqn:?
          end).

(** X6.  Outside the login, a first definition is its second definition
    wrapped in a catch-all: it ends in the same world, always answers,
    answers 500 where the second definition raises, and answers the same
    status where the second answers, except that the four routes writing by
    [:id] answer 404 where the second definition answers 200 without a row
    or 204. *)
Theorem first_definitions_wrap_second {bc : Bcrypt} (route : Route)
    (req : Req.t) (w : World) :
  route <> POST_users_login ->
  exists r1,
    earlier_handler route req w =
      (Ok r1, snd (Effective.handler route req w)) /\
    match fst (Effective.handler route req w) with
    | Throw _ => Res.status r1 = 500%nat
    | Ok r =>
        Res.status r1 = Res.status r \/
        (writes_by_id route = true /\ Res.status r1 = 404%nat /\
         (r = Res.mk 200 Res.Undefined \/ r = Res.mk 204 Res.Empty))
    end.
Proof.
  intros Hr. destruct w as [d g f l s t].
  destruct route; try congruence; clear Hr;
    handlers_unfold; statements_unfold; monad_unfold; crunch;
    eexists; (split; [reflexivity|]); simpl; auto 6.
Qed.

Lemma first_definitions_wrap_second_witness :
  exists r1,
    @earlier_handler toy_bcrypt POST_courses (req_of 0 0 0 no_body)
      (world_of catalog_db no_globals []) =
      (Ok r1, snd (@Effective.handler toy_bcrypt POST_courses
                     (req_of 0 0 0 no_body)
                     (world_of catalog_db no_globals []))) /\
    Res.status r1 = 500%nat.
Proof.
  destruct (@first_definitions_wrap_second toy_bcrypt POST_courses
              (req_of 0 0 0 no_body) (world_of catalog_db no_globals []))
    as (r1 & E & S); [discriminate|].
  exists r1. split; [exact E|exact S].
Defined.

(** X7.  [loginUser] touches nothing: under both definitions the world
    after the request is the world before it (no round trip to the store,
    no client leased), and the two definitions answer the same status or
    raise the same exception. *)
Theorem loginUser_definitions_agree {bc : Bcrypt} (req : Req.t) (w : World) :
  snd (Later.loginUser req w) = w /\
  snd (Earlier.loginUser req w) = w /\
  status_of (Later.loginUser req w) = status_of (Earlier.loginUser req w) /\
  (forall e, fst (Later.loginUser req w) = Throw e <->
             fst (Earlier.loginUser req w) = Throw e).
Proof.
  unfold status_of. handlers_unfold. monad_unfold. crunch;
    repeat split; intros; try discriminate; assumption.
Qed.

(** X8.  When the first round trip to the store fails, every route but the
    login raises the failure of the store under the second definitions and
    answers 500 under the first, and the database is left as it was. *)
Theorem failing_store_by_route {bc : Bcrypt} (route : Route) (req : Req.t)
    (w : World) (fs : list bool) :
  route <> POST_users_login ->
  faults w = true :: fs ->
  fst (Effective.handler route req w) = Throw (PgError connection_failure) /\
  status_of (earlier_handler route req w) = Some 500%nat /\
  db (snd (Effective.handler route req w)) = db w /\
  db (snd (earlier_handler route req w)) = db w.
Proof.
  intros Hr Hf. destruct w as [d g f l s t]. simpl in Hf. subst f.
  unfold status_of.
  destruct route; try congruence; clear Hr;
    handlers_unfold; statements_unfold; monad_unfold; simpl;
    repeat split; reflexivity.
Qed.

Lemma failing_store_by_route_witness :
  fst (@Effective.handler toy_bcrypt POST_users_track_course
         (req_of 0 1 6 no_body) (world_of catalog_db no_globals [true])) =
    Throw (PgError connection_failure) /\
  status_of (@earlier_handler toy_bcrypt POST_users_track_course
               (req_of 0 1 6 no_body) (world_of catalog_db no_globals [true])) =
    Some 500%nat /\
  db (snd (@Effective.handler toy_bcrypt POST_users_track_course
             (req_of 0 1 6 no_body) (world_of catalog_db no_globals [true]))) =
    catalog_db /\
  db (snd (@earlier_handler toy_bcrypt POST_users_track_course
             (req_of 0 1 6 no_body) (world_of catalog_db no_globals [true]))) =
    catalog_db.
Proof.
  apply (@failing_store_by_route toy_bcrypt POST_users_track_course
           (req_of 0 1 6 no_body) (world_of catalog_db no_globals [true]) []);
    [discriminate|reflexivity].
Defined.

(** ** The helpers of [db.js] at their edges *)

(** X9.  The three helpers give back the client they took from the pool in
    every outcome (the connection refused, the statement failed, no row
    found, success), and so does every route under both definitions: the
    number of leased clients after a call is the number before it. *)
Theorem no_client_stays_leased {bc : Bcrypt} (w : World) :
  (forall userId courseId,
     leased (snd (addTrackedCourse userId courseId w)) = leased w /\
     leased (snd (removeTrackedCourse userId courseId w)) = leased w /\
     leased (snd (getTrackedCourses userId w)) = leased w) /\
  (forall route req,
     leased (snd (Effective.handler route req w)) = leased w /\
     leased (snd (earlier_handler route req w)) = leased w).
Proof.
  destruct w as [d g f l s t]. split.
  - intros userId courseId. statements_unfold. monad_unfold.
    repeat split; crunch; reflexivity.
  - intros route req. destruct route; handlers_unfold; statements_unfold;
      monad_unfold; split; crunch; reflexivity.
Qed.

Lemma map_if_none {A} (p : A -> bool) (g : A -> A) (l : list A) :
  find p l = None -> map (fun r => if p r then g r else r) l = l.
Proof.
  induction l as [|a l IH]; simpl; [reflexivity|].
  destruct (p a); [discriminate|]. intros H. rewrite (IH H). reflexivity.
Qed.

Lemma with_users_same (d : Db) : with_users (users_tbl d) d = d.
Proof. destruct d; reflexivity. Qed.

(** X10.  For an identifier that no user has, and while the store completes
    its round trips, [addTrackedCourse] and [removeTrackedCourse] succeed
    and change nothing in the database, while [getTrackedCourses] raises
    [TypeError] instead of returning a list. *)
Theorem helpers_on_unknown_user (userId courseId : Z) (w : World) :
  quiet 2 w = true ->
  user_by_id userId (db w) = None ->
  fst (addTrackedCourse userId courseId w) = Ok tt /\
  db (snd (addTrackedCourse userId courseId w)) = db w /\
  fst (removeTrackedCourse userId courseId w) = Ok tt /\
  db (snd (removeTrackedCourse userId courseId w)) = db w /\
  fst (getTrackedCourses userId w) =
    Throw (TypeError "Cannot read properties of undefined").
Proof.
  intros Hq Hu.
  rewrite (addTrackedCourse_run userId courseId w Hq).
  rewrite (removeTrackedCourse_run userId courseId w Hq).
  rewrite (getTrackedCourses_run userId w Hq).
  unfold tracked_of. rewrite Hu. simpl.
  unfold user_by_id in Hu.
  rewrite !(map_if_none (fun r => Users.id r =? userId)) by exact Hu.
  rewrite with_users_same. repeat split; reflexivity.
Qed.

Lemma helpers_on_unknown_user_witness :
  fst (addTrackedCourse 9 5 (world_of two_users_db no_globals [])) = Ok tt /\
  db (snd (addTrackedCourse 9 5 (world_of two_users_db no_globals []))) =
    two_users_db /\
  fst (removeTrackedCourse 9 5 (world_of two_users_db no_globals [])) = Ok tt /\
  db (snd (removeTrackedCourse 9 5 (world_of two_users_db no_globals []))) =
    two_users_db /\
  fst (getTrackedCourses 9 (world_of two_users_db no_globals [])) =
    Throw (TypeError "Cannot read properties of undefined").
Proof.
  apply (helpers_on_unknown_user 9 5 (world_of two_users_db no_globals []));
    reflexivity.
Defined.

Lemma array_remove_append (a : list Z) (x : Z) :
  array_remove (array_append a x) x = array_remove a x.
Proof.
  unfold array_remove, array_append. rewrite filter_app. simpl.
  rewrite Z.eqb_refl. simpl. apply app_nil_r.
Qed.

Lemma quiet_with_db (n : nat) (d : Db) (w : World) :
  quiet n (with_db d w) = quiet n w.
Proof. reflexivity. Qed.

(** X11.  Tracking then untracking is not an undo: for an existing user
    with list [old], [addTrackedCourse] followed by [removeTrackedCourse] of
    the same course leaves [old] without any occurrence of the course,
    which is [old] again exactly when the course was not tracked before. *)
Theorem track_then_untrack (userId courseId : Z) (w : World) (old : list Z) :
  quiet 6 w = true ->
  tracked_of userId (db w) = Some old ->
  exists w1 w2 w3,
    addTrackedCourse userId courseId w = (Ok tt, w1) /\
    removeTrackedCourse userId courseId w1 = (Ok tt, w2) /\
    getTrackedCourses userId w2 = (Ok (array_remove old courseId), w3) /\
    (array_remove old courseId = old <-> ~ In courseId old).
Proof.
  intros Hq Hold.
  pose proof (addTrackedCourse_run userId courseId w
                (quiet_le 2 6 w ltac:(lia) Hq)) as R1.
  set (w1 := with_db (snd (update_tracked_append courseId userId (db w)))
                     (tick (tick w))) in *.
  assert (Hq1 : quiet 4 w1 = true).
  { apply (quiet_tick 4 (tick w)). apply (quiet_tick 5 w). exact Hq. }
  pose proof (removeTrackedCourse_run userId courseId w1
                (quiet_le 2 4 w1 ltac:(lia) Hq1)) as R2.
  set (w2 := with_db (snd (update_tracked_remove courseId userId (db w1)))
                     (tick (tick w1))) in *.
  assert (Hq2 : quiet 2 w2 = true).
  { apply (quiet_tick 2 (tick w1)). apply (quiet_tick 3 w1). exact Hq1. }
  pose proof (getTrackedCourses_run userId w2 Hq2) as R3.
  assert (Ht : tracked_of userId (db w2) = Some (array_remove old courseId)).
  { replace (db w2) with (snd (update_tracked_remove courseId userId (db w1)))
      by reflexivity.
    rewrite tracked_after_remove.
    replace (db w1) with (snd (update_tracked_append courseId userId (db w)))
      by reflexivity.
    rewrite tracked_after_append, Hold. simpl. rewrite Z.eqb_refl.
    rewrite array_remove_append. reflexivity. }
  rewrite Ht in R3.
  exists w1, w2, (tick (tick w2)). repeat split; try assumption.
  - intros E Hin. apply (array_remove_not_in old courseId). rewrite E. exact Hin.
  - apply array_remove_absent.
Qed.

Lemma track_then_untrack_witness :
  exists w1 w2 w3,
    addTrackedCourse 1 5 (world_of two_users_db no_globals []) = (Ok tt, w1) /\
    removeTrackedCourse 1 5 w1 = (Ok tt, w2) /\
    getTrackedCourses 1 w2 = (Ok [7], w3) /\
    (array_remove [5; 7; 5] 5 = [5; 7; 5] <-> ~ In 5 [5; 7; 5]).
Proof.
  apply (track_then_untrack 1 5 (world_of two_users_db no_globals [])
           [5; 7; 5]); reflexivity.
Defined.

Lemma filter_filter_comm {A} (p q : A -> bool) (l : list A) :
  filter p (filter q l) = filter q (filter p l).
Proof.
  induction l as [|a l IH]; simpl; [reflexivity|].
  destruct (p a) eqn:P, (q a) eqn:Q; simpl; rewrite ?P, ?Q, IH; reflexivity.
Qed.

Lemma filter_idem {A} (p : A -> bool) (l : list A) :
  filter p (filter p l) = filter p l.
Proof.
  induction l as [|a l IH]; simpl; [reflexivity|].
  destruct (p a) eqn:P; simpl; rewrite ?P, IH; reflexivity.
Qed.

Lemma update_tracked_remove_twice (c1 c2 u : Z) (d : Db) :
  users_tbl (snd (update_tracked_remove c2 u
                    (snd (update_tracked_remove c1 u d)))) =
  map (fun r => if Users.id r =? u
                then Users.set_tracked_courses
                       (array_remove (array_remove (Users.tracked_courses r) c1)
                                     c2) r
                else r) (users_tbl d).
Proof.
  unfold update_tracked_remove. simpl. rewrite map_map. apply map_ext.
  intros r. destruct (Users.id r =? u) eqn:E; simpl; rewrite E; reflexivity.
Qed.

(** X12.  Untracking is idempotent and does not depend on the order: on a
    store that completes its round trips, untracking a course twice leaves
    the database that untracking it once leaves, and untracking two courses
    leaves the same database in either order. *)
Theorem untrack_idempotent_and_commutes (userId c1 c2 : Z) (w : World) :
  quiet 4 w = true ->
  db (snd (removeTrackedCourse userId c1
             (snd (removeTrackedCourse userId c1 w)))) =
  db (snd (removeTrackedCourse userId c1 w)) /\
  db (snd (removeTrackedCourse userId c2
             (snd (removeTrackedCourse userId c1 w)))) =
  db (snd (removeTrackedCourse userId c1
             (snd (removeTrackedCourse userId c2 w)))).
Proof.
  intros Hq.
  assert (Hq2 : quiet 2 w = true) by (apply (quiet_le 2 4 w); [lia|exact Hq]).
  assert (Hn : forall c, quiet 2 (snd (removeTrackedCourse userId c w)) = true).
  { intros c. rewrite (removeTrackedCourse_run userId c w Hq2). simpl.
    rewrite quiet_with_db. apply (quiet_tick 2 (tick w)).
    apply (quiet_tick 3 w). exact Hq. }
  assert (Hd : forall c c',
             db (snd (removeTrackedCourse userId c'
                        (snd (removeTrackedCourse userId c w)))) =
             snd (update_tracked_remove c' userId
                    (snd (update_tracked_remove c userId (db w))))).
  { intros c c'. rewrite (removeTrackedCourse_run userId c' _ (Hn c)).
    rewrite (removeTrackedCourse_run userId c w Hq2). reflexivity. }
  assert (Hd1 : db (snd (removeTrackedCourse userId c1 w)) =
                snd (update_tracked_remove c1 userId (db w))).
  { rewrite (removeTrackedCourse_run userId c1 w Hq2). reflexivity. }
  rewrite !Hd, Hd1.
  assert (Hdb : forall d1 d2 : Db,
             users_tbl d1 = users_tbl d2 -> users_id_seq d1 = users_id_seq d2 ->
             courses_tbl d1 = courses_tbl d2 ->
             courses_id_seq d1 = courses_id_seq d2 ->
             assignments_tbl d1 = assignments_tbl d2 ->
             assignments_id_seq d1 = assignments_id_seq d2 -> d1 = d2).
  { intros [] []; simpl; intros; subst; reflexivity. }
  split; apply Hdb; try reflexivity.
  - rewrite update_tracked_remove_twice. unfold update_tracked_remove at 1.
    simpl. apply map_ext. intros r. unfold array_remove. rewrite filter_idem.
    reflexivity.
  - rewrite !update_tracked_remove_twice. apply map_ext. intros r.
    unfold array_remove. rewrite filter_filter_comm. reflexivity.
Qed.

Lemma untrack_idempotent_and_commutes_witness :
  db (snd (removeTrackedCourse 1 5
             (snd (removeTrackedCourse 1 5
                     (world_of two_users_db no_globals []))))) =
  db (snd (removeTrackedCourse 1 5 (world_of two_users_db no_globals []))) /\
  db (snd (removeTrackedCourse 1 7
             (snd (removeTrackedCourse 1 5
                     (world_of two_users_db no_globals []))))) =
  db (snd (removeTrackedCourse 1 5
             (snd (removeTrackedCourse 1 7
                     (world_of two_users_db no_globals []))))).
Proof.
  apply (untrack_idempotent_and_commutes 1 5 7
           (world_of two_users_db no_globals [])).
  reflexivity.
Defined.

(** ** The routes that name a user *)

Lemma with_db_same (w : World) : with_db (db w) w = w.
Proof. destruct w; reflexivity. Qed.

Lemma select_run {A} (s : Statement A) (w : World) :
  quiet 1 w = true ->
  (forall d, snd (s d) = d) ->
  round_trip s w = (fst (s (db w)), tick w).
Proof.
  intros Hq Hs. rewrite (round_trip_quiet s w Hq), Hs.
  change (db w) with (db (tick w)) at 2. rewrite with_db_same. reflexivity.
Qed.

Lemma find_none_filter {A} (p : A -> bool) (l : list A) :
  find p l = None -> filter p l = [].
Proof.
  induction l as [|a l IH]; simpl; [reflexivity|].
  destruct (p a); [discriminate|exact IH].
Qed.

Lemma find_some_filter {A} (p : A -> bool) (l : list A) (a : A) :
  find p l = Some a -> (List.length (filter p l) =? 0)%nat = false.
Proof.
  intros H. apply find_some in H. destruct H as [Hin Hp].
  assert (Hf : In a (filter p l)) by (apply filter_In; split; assumption).
  destruct (filter p l); [destruct Hf|reflexivity].
Qed.

Section User_routes.
Context {bc : Bcrypt}.

(** X13.  The four routes that name a user check the user first: for an
    identifier that no user has, and when the store completes the lookup,
    both definitions answer 404 after that single round trip and leave the
    database as it was. *)
Theorem unknown_user_is_404 (route : Route) (req : Req.t) (w : World) :
  by_user_id route = true ->
  quiet 1 w = true ->
  user_by_id (Params.userId (Req.params req)) (db w) = None ->
  status_of (Effective.handler route req w) = Some 404%nat /\
  status_of (earlier_handler route req w) = Some 404%nat /\
  snd (Effective.handler route req w) = tick w /\
  snd (earlier_handler route req w) = tick w.
Proof.
  intros Hr Hq Hu. apply find_none_filter in Hu.
  unfold status_of.
  destruct route; try discriminate; clear Hr; handlers_unfold;
    unfold try_catch, bind;
    rewrite (select_run _ w Hq) by reflexivity;
    simpl; rewrite Hu; simpl; repeat split; reflexivity.
Qed.

Lemma trackCourse_run (req : Req.t) (w : World) (r : Users.row) :
  let u := Params.userId (Req.params req) in
  let c := Params.courseId (Req.params req) in
  quiet 3 w = true ->
  user_by_id u (db w) = Some r ->
  Later.trackCourse req w =
    (Ok (Res.mk 200 (Res.Data (message_obj "Course added to tracked list"))),
     with_db (snd (update_tracked_append c u (db w))) (tick (tick (tick w)))) /\
  Earlier.trackCourse req w =
    (Ok (Res.mk 200 (Res.Data (message_obj "Course added to tracked list."))),
     with_db (snd (update_tracked_append c u (db w))) (tick (tick (tick w)))).
Proof.
  intros u c Hq Hu. apply find_some_filter in Hu.
  assert (Hq1 : quiet 1 w = true) by (apply (quiet_le 1 3 w); [lia|exact Hq]).
  assert (Hq2 : quiet 2 (tick w) = true) by (apply quiet_tick; exact Hq).
  unfold Later.trackCourse, Earlier.trackCourse, try_catch, bind, pool_query.
  rewrite (select_run _ w Hq1) by reflexivity. simpl. fold u c.
  rewrite Hu. rewrite (addTrackedCourse_run u c (tick w) Hq2).
  split; reflexivity.
Qed.

Lemma untrackCourse_run (req : Req.t) (w : World) (r : Users.row) :
  let u := Params.userId (Req.params req) in
  let c := Params.courseId (Req.params req) in
  quiet 3 w = true ->
  user_by_id u (db w) = Some r ->
  Later.untrackCourse req w =
    (Ok (Res.mk 200 (Res.Data (message_obj "Course removed from tracked list"))),
     with_db (snd (update_tracked_remove c u (db w))) (tick (tick (tick w)))) /\
  Earlier.untrackCourse req w =
    (Ok (Res.mk 200 (Res.Data (message_obj "Course removed from tracked list."))),
     with_db (snd (update_tracked_remove c u (db w))) (tick (tick (tick w)))).
Proof.
  intros u c Hq Hu. apply find_some_filter in Hu.
  assert (Hq1 : quiet 1 w = true) by (apply (quiet_le 1 3 w); [lia|exact Hq]).
  assert (Hq2 : quiet 2 (tick w) = true) by (apply quiet_tick; exact Hq).
  unfold Later.untrackCourse, Earlier.untrackCourse, try_catch, bind, pool_query.
  rewrite (select_run _ w Hq1) by reflexivity. simpl. fold u c.
  rewrite Hu. rewrite (removeTrackedCourse_run u c (tick w) Hq2).
  split; reflexivity.
Qed.

Lemma getTrackedCoursesForUser_run (req : Req.t) (w : World) (l : list Z) :
  let u := Params.userId (Req.params req) in
  quiet 3 w = true ->
  tracked_of u (db w) = Some l ->
  Later.getTrackedCoursesForUser req w =
    (Ok (Res.mk 200 (courses_body l)), tick (tick (tick w))) /\
  Earlier.getTrackedCoursesForUser req w =
    (Ok (Res.mk 200 (courses_body l)), tick (tick (tick w))).
Proof.
  intros u Hq Hl.
  assert (Hu : exists r, user_by_id u (db w) = Some r).
  { unfold tracked_of in Hl. destruct (user_by_id u (db w)) as [r|];
      [exists r; reflexivity|discriminate]. }
  destruct Hu as [r Hu]. apply find_some_filter in Hu.
  assert (Hq1 : quiet 1 w = true) by (apply (quiet_le 1 3 w); [lia|exact Hq]).
  assert (Hq2 : quiet 2 (tick w) = true) by (apply quiet_tick; exact Hq).
  unfold Later.getTrackedCoursesForUser, Earlier.getTrackedCoursesForUser,
    try_catch, bind, pool_query.
  rewrite (select_run _ w Hq1) by reflexivity. simpl. fold u.
  rewrite Hu. rewrite (getTrackedCourses_run u (tick w) Hq2).
  change (db (tick w)) with (db w). rewrite Hl.
  split; reflexivity.
Qed.
End User_routes.

Lemma tracked_some_user (u : Z) (d : Db) (l : list Z) :
  tracked_of u d = Some l -> exists r, user_by_id u d = Some r.
Proof.
  unfold tracked_of. destruct (user_by_id u d) as [r|];
    [exists r; reflexivity|discriminate].
Qed.

Lemma quiet_after_three (n : nat) (w : World) :
  quiet (3 + n) w = true -> quiet n (tick (tick (tick w))) = true.
Proof.
  intros H. apply quiet_tick. apply quiet_tick. apply quiet_tick. exact H.
Qed.

Section Tracked_scenario.
Variable h : Route -> Req.t -> M Res.t.
Variable req : Req.t.
Let u := Params.userId (Req.params req).
Let c := Params.courseId (Req.params req).
Variables m1 m3 : Res.content.

Hypothesis track_spec : forall w l,
  quiet 3 w = true -> tracked_of u (db w) = Some l ->
  h POST_users_track_course req w =
    (Ok (Res.mk 200 m1),
     with_db (snd (update_tracked_append c u (db w))) (tick (tick (tick w)))).

Hypothesis untrack_spec : forall w l,
  quiet 3 w = true -> tracked_of u (db w) = Some l ->
  h POST_users_untrack_course req w =
    (Ok (Res.mk 200 m3),
     with_db (snd (update_tracked_remove c u (db w))) (tick (tick (tick w)))).

Hypothesis get_spec : forall w l,
  quiet 3 w = true -> tracked_of u (db w) = Some l ->
  h GET_users_tracked_courses req w =
    (Ok (Res.mk 200 (courses_body l)), tick (tick (tick w))).

Lemma tracked_scenario_from_specs (w : World) (old : list Z) :
  quiet 12 w = true ->
  tracked_of u (db w) = Some old ->
  tracked_scenario h req w old.
Proof.
  intros Hq Hold.
  set (w1 := with_db (snd (update_tracked_append c u (db w)))
                     (tick (tick (tick w)))).
  set (w2 := tick (tick (tick w1))).
  set (w3 := with_db (snd (update_tracked_remove c u (db w2)))
                     (tick (tick (tick w2)))).
  assert (Q1 : quiet 9 w1 = true).
  { unfold w1. rewrite quiet_with_db. apply (quiet_after_three 9 w). exact Hq. }
  assert (Q2 : quiet 6 w2 = true) by apply (quiet_after_three 6 w1 Q1).
  assert (Q3 : quiet 3 w3 = true).
  { unfold w3. rewrite quiet_with_db. apply (quiet_after_three 3 w2). exact Q2. }
  assert (T1 : tracked_of u (db w1) = Some (old ++ [c])).
  { replace (db w1) with (snd (update_tracked_append c u (db w)))
      by reflexivity.
    rewrite tracked_after_append, Hold. simpl. rewrite Z.eqb_refl. reflexivity. }
  assert (T2 : tracked_of u (db w2) = Some (old ++ [c])) by exact T1.
  assert (T3 : tracked_of u (db w3) = Some (array_remove old c)).
  { replace (db w3) with (snd (update_tracked_remove c u (db w2)))
      by reflexivity.
    rewrite tracked_after_remove, T2. simpl. rewrite Z.eqb_refl.
    change (old ++ [c]) with (array_append old c).
    rewrite array_remove_append. reflexivity. }
  exists w1, w2, w3, (tick (tick (tick w3))), (Res.mk 200 m1), (Res.mk 200 m3).
  repeat split.
  - apply (track_spec w old); [apply (quiet_le 3 12 w); [lia|exact Hq]|exact Hold].
  - apply (get_spec w1 (old ++ [c])); [apply (quiet_le 3 9 w1); [lia|exact Q1]|exact T1].
  - apply (untrack_spec w2 (old ++ [c])); [apply (quiet_le 3 6 w2); [lia|exact Q2]|exact T2].
  - apply (get_spec w3 (array_remove old c)); [exact Q3|exact T3].
Qed.
End Tracked_scenario.

(** X14.  Over HTTP, for an existing user whose list is [old] and a store
    that completes its round trips: tracking a course, listing, untracking
    it and listing again are all answered 200; the first listing is [old]
    with the course appended and the second is [old] without any occurrence
    of the course.  Both definitions of the handlers behave so. *)
Theorem track_list_untrack_list {bc : Bcrypt} (req : Req.t) (w : World)
    (old : list Z) :
  quiet 12 w = true ->
  tracked_of (Params.userId (Req.params req)) (db w) = Some old ->
  tracked_scenario Effective.handler req w old /\
  tracked_scenario earlier_handler req w old.
Proof.
  intros Hq Hold. split.
  - apply (tracked_scenario_from_specs Effective.handler req
             (Res.Data (message_obj "Course added to tracked list"))
             (Res.Data (message_obj "Course removed from tracked list")));
      try assumption; intros w0 l Q T.
    + destruct (tracked_some_user _ _ _ T) as [r Hu].
      apply (proj1 (trackCourse_run req w0 r Q Hu)).
    + destruct (tracked_some_user _ _ _ T) as [r Hu].
      apply (proj1 (untrackCourse_run req w0 r Q Hu)).
    + apply (proj1 (getTrackedCoursesForUser_run req w0 l Q T)).
  - apply (tracked_scenario_from_specs earlier_handler req
             (Res.Data (message_obj "Course added to tracked list."))
             (Res.Data (message_obj "Course removed from tracked list.")));
      try assumption; intros w0 l Q T.
    + destruct (tracked_some_user _ _ _ T) as [r Hu].
      apply (proj2 (trackCourse_run req w0 r Q Hu)).
    + destruct (tracked_some_user _ _ _ T) as [r Hu].
      apply (proj2 (untrackCourse_run req w0 r Q Hu)).
    + apply (proj2 (getTrackedCoursesForUser_run req w0 l Q T)).
Qed.

Lemma track_list_untrack_list_witness :
  tracked_scenario (@Effective.handler toy_bcrypt) (req_of 0 1 5 no_body)
    (world_of two_users_db no_globals []) [5; 7; 5] /\
  tracked_scenario (@earlier_handler toy_bcrypt) (req_of 0 1 5 no_body)
    (world_of two_users_db no_globals []) [5; 7; 5].
Proof.
  apply (@track_list_untrack_list toy_bcrypt (req_of 0 1 5 no_body)
           (world_of two_users_db no_globals []) [5; 7; 5]); reflexivity.
Defined.

Lemma unknown_user_is_404_witness :
  status_of (@Effective.handler toy_bcrypt POST_users_track_course
               (req_of 0 9 5 no_body) (world_of two_users_db no_globals [])) =
    Some 404%nat /\
  status_of (@earlier_handler toy_bcrypt POST_users_track_course
               (req_of 0 9 5 no_body) (world_of two_users_db no_globals [])) =
    Some 404%nat /\
  snd (@Effective.handler toy_bcrypt POST_users_track_course
         (req_of 0 9 5 no_body) (world_of two_users_db no_globals [])) =
    tick (world_of two_users_db no_globals []) /\
  snd (@earlier_handler toy_bcrypt POST_users_track_course
         (req_of 0 9 5 no_body) (world_of two_users_db no_globals [])) =
    tick (world_of two_users_db no_globals []).
Proof.
  apply (@unknown_user_is_404 toy_bcrypt POST_users_track_course
           (req_of 0 9 5 no_body) (world_of two_users_db no_globals []));
    reflexivity.
Defined.

Section Users_routes_effects.
Context {bc : Bcrypt}.

(** X15.  For an existing user and a store that completes two round trips,
    both definitions of [verifyUser] answer 200 and end in the same
    database, where the row of that user is the old row with [verified]
    set and the row of every other identifier is the one it was. *)
Theorem verifyUser_sets_the_flag (req : Req.t) (w : World) (r : Users.row) :
  let u := Params.userId (Req.params req) in
  quiet 2 w = true ->
  user_by_id u (db w) = Some r ->
  exists w',
    Later.verifyUser req w =
      (Ok (Res.mk 200 (Res.Data (message_obj "User verified successfully"))),
       w') /\
    Earlier.verifyUser req w =
      (Ok (Res.mk 200 (Res.Data (message_obj "User verified successfully."))),
       w') /\
    user_by_id u (db w') = Some (Users.set_verified true r) /\
    (forall u', u' <> u -> user_by_id u' (db w') = user_by_id u' (db w)).
Proof.
  intros u Hq Hu.
  assert (Hq1 : quiet 1 w = true) by (apply (quiet_le 1 2 w); [lia|exact Hq]).
  assert (Hq2 : quiet 1 (tick w) = true) by (apply quiet_tick; exact Hq).
  pose proof (find_some_filter _ _ _ Hu) as Hf.
  exists (with_db (snd (update_user_verified u (db w))) (tick (tick w))).
  unfold Later.verifyUser, Earlier.verifyUser, try_catch, bind, pool_query.
  rewrite (select_run _ w Hq1) by reflexivity. simpl. fold u. rewrite Hf.
  rewrite (round_trip_quiet _ (tick w) Hq2). simpl.
  split; [reflexivity|]. split; [reflexivity|].
  unfold user_by_id in *. simpl.
  assert (G : forall u',
             find (fun r => Users.id r =? u')
               (map (fun r => if Users.id r =? u
                              then Users.set_verified true r else r)
                    (users_tbl (db w))) =
             option_map (fun r => if Users.id r =? u
                                  then Users.set_verified true r else r)
               (find (fun r => Users.id r =? u') (users_tbl (db w)))).
  { intros u'. apply find_map_same_id.
    intros x. destruct (Users.id x =? u); reflexivity. }
  split.
  - rewrite G, Hu. simpl. apply find_some in Hu. destruct Hu as [_ Hu].
    rewrite Hu. reflexivity.
  - intros u' Hne. rewrite G.
    destruct (find (fun r => Users.id r =? u') (users_tbl (db w)))
      as [x|] eqn:E; [|reflexivity].
    apply find_some in E. destruct E as [_ E]. apply Z.eqb_eq in E.
    simpl. destruct (Z.eqb_spec (Users.id x) u); [congruence|reflexivity].
Qed.

(** X16.  A registration with an email no stored user has, a password and
    a fresh next identifier, on a store that completes its round trips, is
    answered 201 by both definitions with the inserted row: next identifier
    of the sequence, the email, the bcrypt hash of the password at 8 rounds,
    not verified, nothing tracked.  The row is appended to the table, and
    registering the same email again is then answered 400. *)
Theorem createUser_inserts_unverified (req : Req.t) (w : World)
    (e p : string) :
  Body.email (Req.body req) = Some e ->
  Body.password (Req.body req) = Some p ->
  quiet 3 w = true ->
  (forall r, In r (users_tbl (db w)) ->
             Users.email r <> e /\ Users.id r <> users_id_seq (db w) + 1) ->
  exists w',
    Later.createUser req w =
      (Ok (Res.mk 201 (Res.Data (user_json (new_user w e p)))), w') /\
    Earlier.createUser req w =
      (Ok (Res.mk 201 (Res.Data (user_json (new_user w e p)))), w') /\
    users_tbl (db w') = users_tbl (db w) ++ [new_user w e p] /\
    status_of (Later.createUser req w') = Some 400%nat /\
    status_of (Earlier.createUser req w') = Some 400%nat.
Proof.
  intros He Hp Hq Hfresh.
  assert (Hsel : filter (fun r => opt_eqb (Some e) (Users.email r))
                        (users_tbl (db w)) = []).
  { apply filter_none. apply not_true_is_false. intros H.
    apply existsb_exists in H. destruct H as (r & Hin & Hr). simpl in Hr.
    apply String.eqb_eq in Hr. apply (proj1 (Hfresh r Hin)). congruence. }
  assert (Hins : existsb (fun r => (Users.id r =? users_id_seq (db w) + 1)
                                   || String.eqb (Users.email r) e)
                         (users_tbl (db w)) = false).
  { apply not_true_is_false. intros H.
    apply existsb_exists in H. destruct H as (r & Hin & Hr).
    destruct (Hfresh r Hin) as [H1 H2]. apply orb_true_iff in Hr.
    destruct Hr as [Hr|Hr].
    - apply Z.eqb_eq in Hr. contradiction.
    - apply String.eqb_eq in Hr. contradiction. }
  destruct w as [d g f l s t]. simpl in *.
  unfold Later.createUser, Earlier.createUser, status_of, new_user,
    try_catch, bind, pool_query, round_trip, bcrypt_hashSync,
    select_users_by_email, insert_user, json, json_row0, ret, quiet in *.
  simpl in *. rewrite He, Hp.
  destruct f as [|[|] [|[|] [|[|] f]]]; simpl in *; try discriminate;
    rewrite ?Hsel, ?Hins; simpl; rewrite ?Hsel, ?Hins; simpl;
    eexists; (split; [reflexivity|]); (split; [reflexivity|]);
    (split; [reflexivity|]); simpl;
    rewrite filter_app; simpl; rewrite String.eqb_refl;
    rewrite Hsel; simpl; split; reflexivity.
Qed.

(** X17.  A registration that lacks the password or the email inserts
    nobody: when the email is not already stored and the store completes
    its round trips, the second definition raises (bcrypt refuses an
    undefined password, the store refuses a null email), the first answers
    500, and the table of users is left as it was. *)
Theorem createUser_missing_field (req : Req.t) (w : World) :
  Body.password (Req.body req) = None \/ Body.email (Req.body req) = None ->
  quiet 2 w = true ->
  (forall r e, In r (users_tbl (db w)) ->
               Body.email (Req.body req) = Some e -> Users.email r <> e) ->
  (exists x, fst (Later.createUser req w) = Throw x) /\
  status_of (Earlier.createUser req w) = Some 500%nat /\
  users_tbl (db (snd (Later.createUser req w))) = users_tbl (db w) /\
  users_tbl (db (snd (Earlier.createUser req w))) = users_tbl (db w).
Proof.
  intros Hm Hq Hfresh.
  assert (Hsel : filter (fun r => opt_eqb (Body.email (Req.body req))
                                          (Users.email r))
                        (users_tbl (db w)) = []).
  { apply filter_none. apply not_true_is_false. intros H.
    apply existsb_exists in H. destruct H as (r & Hin & Hr).
    destruct (Body.email (Req.body req)) as [e|] eqn:E; [|discriminate].
    simpl in Hr. apply String.eqb_eq in Hr.
    apply (Hfresh r e Hin eq_refl). congruence. }
  destruct w as [d g f l s t]. simpl in *.
  unfold Later.createUser, Earlier.createUser, status_of,
    try_catch, bind, pool_query, round_trip, bcrypt_hashSync,
    select_users_by_email, insert_user, json, json_row0, ret, quiet in *.
  simpl in *.
  destruct f as [|[|] [|[|] f]]; simpl in *; try discriminate;
    rewrite ?Hsel; simpl;
    destruct Hm as [Hm|Hm]; rewrite Hm; simpl;
    try (destruct (Body.password (Req.body req)); simpl);
    repeat split; try reflexivity; eexists; reflexivity.
Qed.
End Users_routes_effects.

(** ** The catalog routes on existing targets *)

Lemma find_map_pres {A} (p : A -> bool) (g : A -> A) (l : list A) :
  (forall a, p (g a) = p a) ->
  find p (map g l) = option_map g (find p l).
Proof.
  intros H. induction l as [|a l IH]; simpl; [reflexivity|].
  rewrite H. destruct (p a); [reflexivity|exact IH].
Qed.

Lemma find_some_existsb {A} (p : A -> bool) (l : list A) (a : A) :
  find p l = Some a -> existsb p l = true.
Proof.
  intros H. apply find_some in H. apply existsb_exists. exists a. exact H.
Qed.

Lemma filter_head_find {A} (p : A -> bool) (l : list A) (a : A) :
  find p l = Some a -> exists rest, filter p l = a :: rest.
Proof.
  induction l as [|b l IH]; simpl; [discriminate|].
  destruct (p b) eqn:E.
  - intros H. injection H as ->. eexists. reflexivity.
  - exact IH.
Qed.

Lemma find_filter_other {A} (p q : A -> bool) (l : list A) :
  (forall a, p a = true -> q a = true) ->
  find p (filter q l) = find p l.
Proof.
  intros H. induction l as [|a l IH]; simpl; [reflexivity|].
  destruct (q a) eqn:Q; simpl.
  - destruct (p a); [reflexivity|exact IH].
  - destruct (p a) eqn:P; [rewrite (H a P) in Q; discriminate|exact IH].
Qed.

Section Catalog_existing.
Variable req : Req.t.
Variable w : World.
Let i := Params.id (Req.params req).
Let b := Req.body req.

(** X18.  Updating an existing course with a name, on a store that
    completes the call, is answered 200 by both definitions with the same
    row, which carries the identifier of the request and the three fields
    of the body; both end in the same database, where that row is the one
    found under the identifier and every other identifier finds the row it
    found before. *)
Theorem updateCourse_replaces_the_row (r0 : Courses.row) (n : string) :
  quiet 1 w = true ->
  course_by_id i (db w) = Some r0 ->
  Body.name b = Some n ->
  let new := Courses.mk i n (Body.description b) (Body.instructor b) in
  exists w',
    Later.updateCourse req w = (Ok (Res.mk 200 (Res.Data (course_json new))), w') /\
    Earlier.updateCourse req w = (Ok (Res.mk 200 (Res.Data (course_json new))), w') /\
    course_by_id i (db w') = Some new /\
    (forall i', i' <> i -> course_by_id i' (db w') = course_by_id i' (db w)).
Proof.
  intros Hq Hc Hn new. unfold course_by_id in *.
  pose proof (find_some_existsb _ _ _ Hc) as Hex.
  assert (Hid : Courses.id r0 = i).
  { apply find_some in Hc. apply Z.eqb_eq. apply Hc. }
  set (upd := fun r => if Courses.id r =? i
                       then Courses.mk (Courses.id r) n (Body.description b)
                              (Body.instructor b)
                       else r).
  assert (G : forall i', find (fun r => Courses.id r =? i')
                           (map upd (courses_tbl (db w))) =
                         option_map upd
                           (find (fun r => Courses.id r =? i')
                                 (courses_tbl (db w)))).
  { intros i'. apply find_map_pres. intros a. unfold upd.
    destruct (Courses.id a =? i); reflexivity. }
  assert (Hnew : upd r0 = new).
  { unfold upd, new. rewrite Hid, Z.eqb_refl. reflexivity. }
  destruct (filter_head_find (fun r => Courses.id r =? i)
              (map upd (courses_tbl (db w))) new) as [rest Hrest].
  { rewrite G, Hc. simpl. rewrite Hnew. reflexivity. }
  exists (with_db (with_courses (map upd (courses_tbl (db w))) (db w)) (tick w)).
  unfold Later.updateCourse, Earlier.updateCourse, try_catch, bind, pool_query.
  rewrite (round_trip_quiet _ w Hq).
  unfold update_course. fold i b. rewrite Hex, Hn. fold upd. simpl.
  rewrite Hrest. simpl.
  split; [reflexivity|]. split; [reflexivity|]. split.
  - rewrite G, Hc. simpl. rewrite Hnew. reflexivity.
  - intros i' Hne. rewrite G.
    destruct (find (fun r => Courses.id r =? i') (courses_tbl (db w)))
      as [x|] eqn:E; [|reflexivity].
    apply find_some in E. destruct E as [_ E]. apply Z.eqb_eq in E.
    simpl. unfold upd.
    destruct (Z.eqb_spec (Courses.id x) i); [congruence|reflexivity].
Qed.

(** X19.  Deleting an existing course that no assignment references, on a
    store that completes the call, is answered 204 by both definitions;
    both end in the same database, where no course has that identifier any
    more and every other identifier finds the row it found before. *)
Theorem deleteCourse_removes_the_row (r0 : Courses.row) :
  quiet 1 w = true ->
  course_by_id i (db w) = Some r0 ->
  ~ referenced i (db w) ->
  exists w',
    Later.deleteCourse req w = (Ok (Res.mk 204 Res.Empty), w') /\
    Earlier.deleteCourse req w = (Ok (Res.mk 204 Res.Empty), w') /\
    course_by_id i (db w') = None /\
    (forall i', i' <> i -> course_by_id i' (db w') = course_by_id i' (db w)).
Proof.
  intros Hq Hc Hnr. unfold course_by_id in *.
  assert (Href : existsb (fun a => match Assignments.course_id a with
                                   | Some c => c =? i
                                   | None => false
                                   end) (assignments_tbl (db w)) = false).
  { apply not_true_is_false. intros H. apply existsb_exists in H.
    destruct H as (a & Hin & Ha). apply Hnr. exists a. split; [exact Hin|].
    destruct (Assignments.course_id a) as [c|]; [|discriminate].
    apply Z.eqb_eq in Ha. congruence. }
  destruct (filter_head_find _ _ _ Hc) as [rest Hrest].
  exists (with_db (with_courses
                     (filter (fun r => negb (Courses.id r =? i))
                             (courses_tbl (db w))) (db w)) (tick w)).
  unfold Later.deleteCourse, Earlier.deleteCourse, try_catch, bind, pool_query.
  rewrite (round_trip_quiet _ w Hq).
  unfold delete_course. fold i. rewrite Href, andb_false_r. simpl.
  rewrite Hrest. simpl.
  split; [reflexivity|]. split; [reflexivity|]. split.
  - destruct (find _ (filter _ _)) as [x|] eqn:E; [|reflexivity].
    apply find_some in E. destruct E as [E1 E2]. apply filter_In in E1.
    destruct E1 as [_ E1]. rewrite E2 in E1. discriminate.
  - intros i' Hne. apply find_filter_other. intros a Ha.
    apply Z.eqb_eq in Ha.
    destruct (Z.eqb_spec (Courses.id a) i); [congruence|reflexivity].
Qed.

(** X20.  Deleting a course that an assignment references is refused by the
    store: when the store reaches the statement, the second definition
    raises the foreign-key violation, the first answers 500, and the
    database is left as it was. *)
Theorem deleteCourse_refused_when_referenced (r0 : Courses.row) :
  quiet 1 w = true ->
  course_by_id i (db w) = Some r0 ->
  referenced i (db w) ->
  fst (Later.deleteCourse req w) = Throw (PgError foreign_key_violation) /\
  status_of (Earlier.deleteCourse req w) = Some 500%nat /\
  db (snd (Later.deleteCourse req w)) = db w /\
  db (snd (Earlier.deleteCourse req w)) = db w.
Proof.
  intros Hq Hc (a & Hin & Ha). unfold course_by_id in *.
  pose proof (find_some_existsb _ _ _ Hc) as Hex.
  assert (Href : existsb (fun a => match Assignments.course_id a with
                                   | Some c => c =? i
                                   | None => false
                                   end) (assignments_tbl (db w)) = true).
  { apply existsb_exists. exists a. split; [exact Hin|].
    rewrite Ha. apply Z.eqb_refl. }
  unfold Later.deleteCourse, Earlier.deleteCourse, status_of, try_catch, bind,
    pool_query.
  rewrite (round_trip_quiet _ w Hq).
  unfold delete_course. fold i. rewrite Hex, Href. simpl.
  change (db (tick w)) with (db w).
  repeat split; reflexivity.
Qed.
End Catalog_existing.

(** ** Creating assignments, listing users, and the edges of the login *)


Lemma filter_verified_split (l : list Users.row) :
  (List.length (filter (fun r => Bool.eqb (Users.verified r) true) l) +
   List.length (filter (fun r => Bool.eqb (Users.verified r) false) l))%nat =
  List.length l.
Proof.
  induction l as [|r l IH]; simpl; [reflexivity|].
  destruct (Users.verified r); simpl; lia.
Qed.

(** X22.  On a store that completes the call, the listing of verified users
    and the listing of unverified users split the listing of all users:
    both definitions answer 200 with, respectively, the stored rows whose
    flag is set, the stored rows whose flag is not set, and all stored
    rows; a stored row is in exactly one of the two partial listings and
    their lengths add up to the length of the full one. *)
Theorem user_listings_split {bc : Bcrypt} (req : Req.t) (w : World) :
  quiet 1 w = true ->
  exists vs us,
    (forall h, h = Effective.handler \/ h = earlier_handler ->
       fst (h GET_users_verified req w) = Ok (Res.mk 200 (users_body vs)) /\
       fst (h GET_users_unverified req w) = Ok (Res.mk 200 (users_body us)) /\
       fst (h GET_users req w) =
         Ok (Res.mk 200 (users_body (users_tbl (db w))))) /\
    (forall r, In r vs <-> In r (users_tbl (db w)) /\ Users.verified r = true) /\
    (forall r, In r us <-> In r (users_tbl (db w)) /\ Users.verified r = false) /\
    (List.length vs + List.length us)%nat = List.length (users_tbl (db w)).
Proof.
  intros Hq.
  exists (filter (fun r => Bool.eqb (Users.verified r) true) (users_tbl (db w))),
         (filter (fun r => Bool.eqb (Users.verified r) false) (users_tbl (db w))).
  split; [|split; [|split]].
  - intros h [-> | ->]; handlers_unfold; unfold try_catch, bind;
      rewrite !(select_run _ w Hq) by reflexivity;
      repeat split; reflexivity.
  - intros r. rewrite filter_In.
    destruct (Users.verified r); simpl; intuition congruence.
  - intros r. rewrite filter_In.
    destruct (Users.verified r); simpl; intuition congruence.
  - apply filter_verified_split.
Qed.

(** X23.  [loginUser] raises, and so answers nothing, in three cases, the
    same under both definitions: when no [users] binding exists
    ([ReferenceError]); when a user is found and the request has no
    password (bcrypt refuses the arguments); and when the credentials are
    right and [SECRET] is unset or empty ([jwt.sign] refuses to sign). *)
Theorem loginUser_raises {bc : Bcrypt} (req : Req.t) (w : World) :
  let both (x : Exn) :=
    fst (Later.loginUser req w) = Throw x /\
    fst (Earlier.loginUser req w) = Throw x in
  (users (globals w) = None -> both (ReferenceError "users")) /\
  (forall us user,
     users (globals w) = Some us ->
     found_user req us = Some user ->
     (Body.password (Req.body req) = None ->
      both (Error "Illegal arguments: undefined, string")) /\
     (forall p,
        Body.password (Req.body req) = Some p ->
        compareSync p (mu_password user) = true ->
        SECRET (globals w) = None \/ SECRET (globals w) = Some EmptyString ->
        both (Error "secretOrPrivateKey must have a value"))).
Proof.
  intros both. unfold both. login_unfold. split.
  - intros Hu. simpl. rewrite Hu. split; reflexivity.
  - intros us user Hu Hf. simpl. rewrite Hu, Hf. split.
    + intros Hp. rewrite Hp. split; reflexivity.
    + intros p Hp Hc Hs. rewrite Hp. simpl. rewrite Hc. simpl.
      destruct Hs as [Hs|Hs]; rewrite Hs; split; reflexivity.
Qed.

(** ** Witnesses of the properties above *)

Lemma verifyUser_sets_the_flag_witness :
  exists w',
    @Later.verifyUser (req_of 0 2 0 no_body)
      (world_of two_users_db no_globals []) =
      (Ok (Res.mk 200 (Res.Data (message_obj "User verified successfully"))),
       w') /\
    user_by_id 2 (db w') = Some (Users.mk 2 "b@x.com" "$2a$pw2" true [5]) /\
    user_by_id 1 (db w') = user_by_id 1 two_users_db.
Proof.
  destruct (verifyUser_sets_the_flag (req_of 0 2 0 no_body)
              (world_of two_users_db no_globals [])
              (Users.mk 2 "b@x.com" "$2a$pw2" false [5]))
    as (w' & L & _ & U & O); [reflexivity|reflexivity|].
  exists w'. split; [exact L|]. split; [exact U|].
  apply (O 1). discriminate.
Defined.

Lemma createUser_inserts_unverified_witness :
  exists w',
    @Later.createUser toy_bcrypt (req_of 0 0 0 (login_body "b@x.com" "pw2"))
      (world_of catalog_db no_globals []) =
      (Ok (Res.mk 201 (Res.Data (user_json
             (Users.mk 2 "b@x.com" (toy_hash "pw2") false [])))), w') /\
    status_of (@Later.createUser toy_bcrypt
                 (req_of 0 0 0 (login_body "b@x.com" "pw2")) w') =
      Some 400%nat.
Proof.
  destruct (@createUser_inserts_unverified toy_bcrypt
              (req_of 0 0 0 (login_body "b@x.com" "pw2"))
              (world_of catalog_db no_globals []) "b@x.com" "pw2")
    as (w' & L & _ & _ & S & _); try reflexivity.
  - intros r [<-|[]]. split; discriminate.
  - exists w'. split; [exact L|exact S].
Defined.

Lemma createUser_missing_field_witness :
  (exists x, fst (@Later.createUser toy_bcrypt
                    (req_of 0 0 0
                       (Body.mk (Some "b@x.com"%string) None None None None
                          None None None))
                    (world_of catalog_db no_globals [])) = Throw x) /\
  status_of (@Earlier.createUser toy_bcrypt
               (req_of 0 0 0
                  (Body.mk (Some "b@x.com"%string) None None None None
                     None None None))
               (world_of catalog_db no_globals [])) = Some 500%nat.
Proof.
  destruct (@createUser_missing_field toy_bcrypt
              (req_of 0 0 0
                 (Body.mk (Some "b@x.com"%string) None None None None
                    None None None))
              (world_of catalog_db no_globals []))
    as (L & E & _); [left; reflexivity|reflexivity| |split; assumption].
  intros r e [<-|[]] He. injection He as <-. discriminate.
Defined.

Lemma updateCourse_replaces_the_row_witness :
  exists w',
    Later.updateCourse (req_of 5 0 0 (course_body "Sets"))
      (world_of catalog_db no_globals []) =
      (Ok (Res.mk 200 (Res.Data (course_json (Courses.mk 5 "Sets" None None)))),
       w') /\
    course_by_id 5 (db w') = Some (Courses.mk 5 "Sets" None None) /\
    course_by_id 6 (db w') = Some (Courses.mk 6 "Algebra" None None).
Proof.
  destruct (updateCourse_replaces_the_row (req_of 5 0 0 (course_body "Sets"))
              (world_of catalog_db no_globals [])
              (Courses.mk 5 "Logic" None None) "Sets")
    as (w' & L & _ & C & O); try reflexivity.
  exists w'. split; [exact L|]. split; [exact C|].
  rewrite (O 6); [reflexivity|discriminate].
Defined.

Lemma deleteCourse_removes_the_row_witness :
  exists w',
    Later.deleteCourse (req_of 5 0 0 no_body)
      (world_of catalog_db no_globals []) = (Ok (Res.mk 204 Res.Empty), w') /\
    Earlier.deleteCourse (req_of 5 0 0 no_body)
      (world_of catalog_db no_globals []) = (Ok (Res.mk 204 Res.Empty), w') /\
    course_by_id 5 (db w') = None.
Proof.
  destruct (deleteCourse_removes_the_row (req_of 5 0 0 no_body)
              (world_of catalog_db no_globals [])
              (Courses.mk 5 "Logic" None None))
    as (w' & L & E & C & _); try reflexivity.
  - intros (a & [] & _).
  - exists w'. split; [exact L|]. split; [exact E|exact C].
Defined.

Lemma deleteCourse_refused_when_referenced_witness :
  fst (Later.deleteCourse (req_of 5 0 0 no_body)
         (world_of referenced_db no_globals [])) =
    Throw (PgError foreign_key_violation) /\
  status_of (Earlier.deleteCourse (req_of 5 0 0 no_body)
               (world_of referenced_db no_globals [])) = Some 500%nat /\
  db (snd (Later.deleteCourse (req_of 5 0 0 no_body)
             (world_of referenced_db no_globals []))) = referenced_db /\
  db (snd (Earlier.deleteCourse (req_of 5 0 0 no_body)
             (world_of referenced_db no_globals []))) = referenced_db.
Proof.
  apply (deleteCourse_refused_when_referenced (req_of 5 0 0 no_body)
           (world_of referenced_db no_globals [])
           (Courses.mk 5 "Logic" None None)); try reflexivity.
  exists (Assignments.mk 1 "Essay" None None (Some 5) None).
  split; [left|]; reflexivity.
Defined.


Lemma user_listings_split_witness :
  exists vs us,
    fst (@Effective.handler toy_bcrypt GET_users_verified (req_of 0 0 0 no_body)
           (world_of two_users_db no_globals [])) =
      Ok (Res.mk 200 (users_body vs)) /\
    fst (@Effective.handler toy_bcrypt GET_users_unverified
           (req_of 0 0 0 no_body) (world_of two_users_db no_globals [])) =
      Ok (Res.mk 200 (users_body us)) /\
    (List.length vs + List.length us = 2)%nat.
Proof.
  destruct (@user_listings_split toy_bcrypt (req_of 0 0 0 no_body)
              (world_of two_users_db no_globals []) eq_refl)
    as (vs & us & H & _ & _ & L).
  exists vs, us.
  destruct (H Effective.handler (or_introl eq_refl)) as (V & U & _).
  split; [exact V|]. split; [exact U|exact L].
Defined.

Lemma loginUser_raises_witness :
  fst (@Later.loginUser toy_bcrypt (req_of 0 0 0 (login_body "a@x.com" "pw1"))
         (world_of empty_db no_globals [])) = Throw (ReferenceError "users") /\
  fst (@Earlier.loginUser toy_bcrypt (req_of 0 0 0 (login_body "a@x.com" "pw1"))
         (world_of empty_db no_globals [])) = Throw (ReferenceError "users").
Proof.
  apply (proj1 (@loginUser_raises toy_bcrypt
                  (req_of 0 0 0 (login_body "a@x.com" "pw1"))
                  (world_of empty_db no_globals []))).
  reflexivity.
Defined.
